(** * Parameter-store clients of [kge/distributed/parameter_client.py]

    A shallow embedding of the three client classes
    [LapseParameterClient], [TorchParameterClient] and
    [SharedParameterClient] together with their common base class
    [KgeParameterClient], and the properties of the store contract that
    can be read off them.

    Rows are [torch.float32] tensors; their elements are modelled as IEEE-754
    binary32 numbers ([spec_float] with 24 bits of precision).  Keys and the
    other entries of a [torch.LongTensor] are Python integers ([Z]); that they
    have to fit 64 bits is not modelled.  A method call is a state
    transformer that returns how the call ended together with the state it
    leaves behind, so that what a call did before it raised stays visible.

    The server of the command protocol and the engine behind the
    embedded-server client are not part of the file.  The command-protocol
    client is therefore described by what it sends and by what it does with
    the replies that reach it; the embedded-server client is described over
    an arbitrary implementation of the worker class it inherits from. *)

From Stdlib Require Import ZArith List Bool String Ascii Lia.
From Stdlib Require Import Floats.SpecFloat.
From stdpp Require Import base option list.
Import ListNotations.
Open Scope Z_scope.

(** ** How a Python call ends *)

Inductive exn : Type :=
| IndexError
| RuntimeError
| TypeError
| AttributeError
| NotImplementedError
| ValueError.

(** [Ret a]: the call returns [a].  [Raise e]: it raises [e].  [Blocked]: it
    waits in a blocking receive for a message that never comes. *)
Inductive result (A : Type) : Type :=
| Ret (a : A)
| Raise (e : exn)
| Blocked.
Arguments Ret {A} a.
Arguments Raise {A} e.
Arguments Blocked {A}.

Definition M (S A : Type) : Type := S -> result A * S.

Definition ret {S A} (a : A) : M S A := fun s => (Ret a, s).

Definition bind {S A B} (m : M S A) (k : A -> M S B) : M S B :=
  fun s =>
    match m s with
    | (Ret a, s') => k a s'
    | (Raise e, s') => (Raise e, s')
    | (Blocked, s') => (Blocked, s')
    end.

Definition raise {S A} (e : exn) : M S A := fun s => (Raise e, s).
Definition get {S} : M S S := fun s => (Ret s, s).
Definition put {S} (s : S) : M S unit := fun _ => (Ret tt, s).

(** A computation without state of its own, run inside a call. *)
Definition lift {S A} (r : result A) : M S A := fun s => (r, s).

Notation "'do' x <- m ; k" := (bind m (fun x => k))
  (at level 10, x pattern, m at level 100, k at level 200,
   format "'[v' 'do'  x  <-  m ; '/' k ']'").
Notation "'exec' m ; k" := (bind m (fun _ => k))
  (at level 10, m at level 100, k at level 200,
   format "'[v' 'exec'  m ; '/' k ']'").

(** ** float32 elements *)

Definition f32 : Type := spec_float.
Definition f32_add : f32 -> f32 -> f32 := SFadd 24 128.
(** Python's [x == y] on two float32 values. *)
Definition f32_eqb : f32 -> f32 -> bool := SFeqb.
Definition f32_zero : f32 := S754_zero false.
Definition f32_one : f32 := S754_finite false 8388608 (-23).
(** The float32 nearest to an integer. *)
Definition f32_of_Z (z : Z) : f32 := binary_normalize 24 128 z 0 false.

(** ** Tensors *)

(** A two-dimensional float32 tensor of shape [(length rows, ncols)]. *)
Record Tensor2 : Type := mkTensor2 { ncols : nat; rows : list (list f32) }.

Definition nrows (t : Tensor2) : nat := length (rows t).

(** Every row has the width the tensor declares. *)
Definition wf_tensor (t : Tensor2) : Prop :=
  Forall (fun r => length r = ncols t) (rows t).

Definition has_shape (t : Tensor2) (n d : nat) : Prop :=
  nrows t = n /\ ncols t = d /\ wf_tensor t.

(** [torch.full((n, d), x)]; a negative dimension is refused. *)
Definition torch_full (n d : Z) (x : f32) : result Tensor2 :=
  if (n <? 0) || (d <? 0) then Raise RuntimeError
  else Ret (mkTensor2 (Z.to_nat d)
              (replicate (Z.to_nat n) (replicate (Z.to_nat d) x))).

Definition torch_zeros (n d : Z) : result Tensor2 := torch_full n d f32_zero.
Definition torch_ones (n d : Z) : result Tensor2 := torch_full n d f32_one.

(** An index into a dimension of size [n]: negative indices count from the
    end, anything else outside [0, n) is out of bounds. *)
Definition wrap_index (n : nat) (k : Z) : option nat :=
  if (0 <=? k) && (k <? Z.of_nat n) then Some (Z.to_nat k)
  else if (- Z.of_nat n <=? k) && (k <? 0) then Some (Z.to_nat (k + Z.of_nat n))
  else None.

(** [t[keys, :]] read: the rows at [keys], in the order of [keys]. *)
Definition index_select (t : Tensor2) (keys : list Z) : result Tensor2 :=
  match mapM (fun k => i ← wrap_index (nrows t) k; rows t !! i) keys with
  | Some rs => Ret (mkTensor2 (ncols t) rs)
  | None => Raise IndexError
  end.

(** Broadcasting of a tensor to the shape [(n, d)]: a dimension that already
    has the wanted size is kept, a dimension of size one is repeated, any
    other mismatch is refused. *)
Definition broadcastable (m n : nat) : bool := (m =? n)%nat || (m =? 1)%nat.

Definition expand_row (c d : nat) (r : list f32) : list f32 :=
  if decide (c = d) then r
  else match r with
       | [x] => replicate d x
       | _ => r
       end.

Definition expand (n d : nat) (t : Tensor2) : option Tensor2 :=
  if broadcastable (nrows t) n && broadcastable (ncols t) d then
    let rs := map (expand_row (ncols t) d) (rows t) in
    Some (mkTensor2 d
            (if decide (nrows t = n) then rs
             else match rs with
                  | [r] => replicate n r
                  | _ => rs
                  end))
  else None.

(** [dst[:, :] = src] *)
Definition copy_ (dst src : Tensor2) : result Tensor2 :=
  match expand (nrows dst) (ncols dst) src with
  | Some t => Ret t
  | None => Raise RuntimeError
  end.

(** Row assignments carried out one after the other. *)
Definition scatter (rs : list (list f32)) (upd : list (nat * list f32))
  : list (list f32) :=
  foldl (fun acc ir => <[ir.1 := ir.2]> acc) rs upd.

(** [t[keys, :] = v].  The value is broadcast to [(len(keys), ncols)] and its
    rows are written in the order of [keys], so of two writes to one key the
    later one stays (the order of a sequential run; the tensor library leaves
    the outcome for repeated keys open). *)
Definition index_put (t : Tensor2) (keys : list Z) (v : Tensor2)
  : result Tensor2 :=
  match expand (length keys) (ncols t) v with
  | None => Raise RuntimeError
  | Some v' =>
      match mapM (wrap_index (nrows t)) keys with
      | None => Raise IndexError
      | Some idx => Ret (mkTensor2 (ncols t) (scatter (rows t) (zip idx (rows v'))))
      end
  end.

(** [t += v], element by element, [v] broadcast to the shape of [t]. *)
Definition iadd (t v : Tensor2) : result Tensor2 :=
  match expand (nrows t) (ncols t) v with
  | None => Raise RuntimeError
  | Some v' =>
      Ret (mkTensor2 (ncols t) (zip_with (zip_with f32_add) (rows t) (rows v')))
  end.

(** [a + b] of two tensors that have the same shape up to broadcasting. *)
Definition torch_add (a b : Tensor2) : result Tensor2 :=
  let n := if decide (nrows a = 1%nat) then nrows b else nrows a in
  let d := if decide (ncols a = 1%nat) then ncols b else ncols a in
  match expand n d a, expand n d b with
  | Some a', Some b' =>
      Ret (mkTensor2 d (zip_with (zip_with f32_add) (rows a') (rows b')))
  | _, _ => Raise RuntimeError
  end.

(** [torch.any(row == x)] *)
Definition any_eq (x : f32) (row : list f32) : bool :=
  existsb (fun y => f32_eqb y x) row.

(** [t[i]] and [t[i, j]] for non-negative constant indices. *)
Definition row_at (t : Tensor2) (i : nat) : result (list f32) :=
  match rows t !! i with
  | Some r => Ret r
  | None => Raise IndexError
  end.

Definition item_at (t : Tensor2) (i j : nat) : result f32 :=
  match rows t !! i with
  | Some r => match r !! j with
              | Some x => Ret x
              | None => Raise IndexError
              end
  | None => Raise IndexError
  end.

(** [t[:] = x]: every element becomes [x], the shape stays. *)
Definition fill (t : Tensor2) (x : f32) : Tensor2 :=
  mkTensor2 (ncols t) (map (map (fun _ => x)) (rows t)).

(** Fallible steps that touch no client state ([torch] constructors inside
    [__init__]). *)
Definition rbind {A B} (r : result A) (k : A -> result B) : result B :=
  match r with
  | Ret a => k a
  | Raise e => Raise e
  | Blocked => Blocked
  end.

Notation "'try' x <- r ; k" := (rbind r (fun x => k))
  (at level 10, x pattern, r at level 100, k at level 200,
   format "'[v' 'try'  x  <-  r ; '/' k ']'").

(** ** What the module imports from the rest of the package

    [config] and the helpers [get_optimizer_dim], [get_num_meta_keys] and
    [initialize_worker_groups] of [kge.distributed.misc] are not part of the
    file; the clients are defined over any implementation of them. *)
Class Misc (Config Group : Type) : Type := {
  (** [config.get("lookup_embedder.dim")] *)
  lookup_embedder_dim : Config -> Z;
  get_optimizer_dim : Config -> Z -> Z;
  get_num_meta_keys : Config -> Z;
  initialize_worker_groups : Config -> Z -> Group * Group;
}.

(** What a [pull] leaves with its caller: the value of the call expression
    ([None] when the method returns nothing) and the contents of the buffer
    the caller passed ([None] when the caller passed none). *)
Record pulled : Type := mkPulled {
  returned : option Tensor2;
  pull_tensor_after : option Tensor2;
}.

(** ** [class KgeParameterClient] *)
Module Kge.
Section Kge.
Context {Config Group : Type} {misc : Misc Config Group}.

Record KgeParameterClient : Type := {
  rank : Z;
  dim : Z;
  num_meta_keys : Z;
  worker_group : Group;
  eval_worker_group : Group;
}.

Definition __init__ (config : Config) (rank : Z) : KgeParameterClient :=
  let embedding_dim := lookup_embedder_dim config in
  let optimizer_dim := get_optimizer_dim config embedding_dim in
  let groups := initialize_worker_groups config rank in
  {| rank := rank;
     dim := embedding_dim + optimizer_dim;
     num_meta_keys := get_num_meta_keys config;
     worker_group := groups.1;
     eval_worker_group := groups.2 |}.

(** The defaults of the base class. *)
Definition stop : M KgeParameterClient unit := ret tt.
Definition is_stopped : M KgeParameterClient bool := ret false.
Definition localize (keys : list Z) (asynchronous : bool)
  : M KgeParameterClient unit := raise NotImplementedError.
End Kge.
Arguments KgeParameterClient : clear implicits.
End Kge.

(** ** [class SharedParameterClient]: the table lives in the process *)
Module Shared.
Section Shared.
Context {Config Group : Type} {misc : Misc Config Group}.

Record SharedParameterClient : Type := {
  base : Kge.KgeParameterClient Group;
  parameters : Tensor2;
  num_keys : Z;
  lr_buffer : list f32;
  _stop_key : list Z;
  _optim_entity_step_key : list Z;
  _optim_relation_step_key : list Z;
  _entity_lr_key : list Z;
  _relation_lr_key : list Z;
  _stop_value_tensor : Tensor2;
  _optim_entity_step_value_tensor : Tensor2;
  _optim_relation_step_value_tensor : Tensor2;
  _entity_lr_tensor : Tensor2;
  _relation_lr_tensor : Tensor2;
  meta_key_tensor : Tensor2;
}.

Definition dim (self : SharedParameterClient) : Z := Kge.dim (base self).
Definition num_meta_keys (self : SharedParameterClient) : Z :=
  Kge.num_meta_keys (base self).

Definition __init__ (config : Config) (rank : Z) (parameters : Tensor2)
  : result SharedParameterClient :=
  let base := Kge.__init__ config rank in
  let num_keys := Z.of_nat (nrows parameters) in
  let dim := Kge.dim base in
  let num_meta_keys := Kge.num_meta_keys base in
  let stop_key := [num_keys - num_meta_keys] in
  let optim_entity_step_key := [num_keys - num_meta_keys + 1] in
  let optim_relation_step_key := [num_keys - num_meta_keys + 2] in
  let entity_lr_key := [num_keys - num_meta_keys + 3] in
  let relation_lr_key := [num_keys - num_meta_keys + 4] in
  try stop_value_tensor <- torch_zeros 1 dim;
  try optim_entity_step_value_tensor <- torch_zeros 1 dim;
  try optim_relation_step_value_tensor <- torch_zeros 1 dim;
  try entity_lr_tensor <- torch_zeros 1 dim;
  try relation_lr_tensor <- torch_zeros 1 dim;
  try meta_key_tensor <- torch_zeros num_meta_keys dim;
  Ret {| base := base;
         parameters := parameters;
         num_keys := num_keys;
         lr_buffer := [f32_zero];
         _stop_key := stop_key;
         _optim_entity_step_key := optim_entity_step_key;
         _optim_relation_step_key := optim_relation_step_key;
         _entity_lr_key := entity_lr_key;
         _relation_lr_key := relation_lr_key;
         _stop_value_tensor := stop_value_tensor;
         _optim_entity_step_value_tensor := optim_entity_step_value_tensor;
         _optim_relation_step_value_tensor := optim_relation_step_value_tensor;
         _entity_lr_tensor := entity_lr_tensor;
         _relation_lr_tensor := relation_lr_tensor;
         meta_key_tensor := meta_key_tensor |}.

(** Attribute assignments. *)
Definition set_parameters (p : Tensor2) (self : SharedParameterClient)
  : SharedParameterClient :=
  {| base := base self;
     parameters := p;
     num_keys := num_keys self;
     lr_buffer := lr_buffer self;
     _stop_key := _stop_key self;
     _optim_entity_step_key := _optim_entity_step_key self;
     _optim_relation_step_key := _optim_relation_step_key self;
     _entity_lr_key := _entity_lr_key self;
     _relation_lr_key := _relation_lr_key self;
     _stop_value_tensor := _stop_value_tensor self;
     _optim_entity_step_value_tensor := _optim_entity_step_value_tensor self;
     _optim_relation_step_value_tensor := _optim_relation_step_value_tensor self;
     _entity_lr_tensor := _entity_lr_tensor self;
     _relation_lr_tensor := _relation_lr_tensor self;
     meta_key_tensor := meta_key_tensor self |}.

Definition set_stop_value_tensor (t : Tensor2) (self : SharedParameterClient)
  : SharedParameterClient :=
  {| base := base self;
     parameters := parameters self;
     num_keys := num_keys self;
     lr_buffer := lr_buffer self;
     _stop_key := _stop_key self;
     _optim_entity_step_key := _optim_entity_step_key self;
     _optim_relation_step_key := _optim_relation_step_key self;
     _entity_lr_key := _entity_lr_key self;
     _relation_lr_key := _relation_lr_key self;
     _stop_value_tensor := t;
     _optim_entity_step_value_tensor := _optim_entity_step_value_tensor self;
     _optim_relation_step_value_tensor := _optim_relation_step_value_tensor self;
     _entity_lr_tensor := _entity_lr_tensor self;
     _relation_lr_tensor := _relation_lr_tensor self;
     meta_key_tensor := meta_key_tensor self |}.

(** [pull(self, keys, pull_tensor, asynchronous=False)].  [pull_tensor] has
    no default: a call that leaves it out does not get as far as the
    body. *)
Definition pull (keys : list Z) (pull_tensor : option Tensor2)
    (asynchronous : bool) : M SharedParameterClient pulled :=
  match pull_tensor with
  | None => raise TypeError
  | Some buf =>
      do self <- get;
      do picked <- lift (index_select (parameters self) keys);
      do buf' <- lift (copy_ buf picked);
      ret (mkPulled None (Some buf'))
  end.

(** [self.parameters[keys, :] += push_tensor]: the rows are read, added to
    and written back. *)
Definition push (keys : list Z) (push_tensor : Tensor2) (asynchronous : bool)
  : M SharedParameterClient unit :=
  do self <- get;
  do picked <- lift (index_select (parameters self) keys);
  do summed <- lift (iadd picked push_tensor);
  do p' <- lift (index_put (parameters self) keys summed);
  put (set_parameters p' self).

Definition set (keys : list Z) (set_tensor : Tensor2) (asynchronous : bool)
  : M SharedParameterClient unit :=
  do self <- get;
  do p' <- lift (index_put (parameters self) keys set_tensor);
  put (set_parameters p' self).

Definition localize (keys : list Z) (asynchronous : bool)
  : M SharedParameterClient unit := ret tt.

Definition stop : M SharedParameterClient unit :=
  do self <- get;
  do ones <- lift (torch_ones 1 (dim self));
  push (_stop_key self) ones false.

Definition is_stopped : M SharedParameterClient bool :=
  do self <- get;
  do r <- pull (_stop_key self) (Some (_stop_value_tensor self)) false;
  exec (match pull_tensor_after r with
        | Some t => put (set_stop_value_tensor t self)
        | None => ret tt
        end);
  do self <- get;
  do row <- lift (row_at (_stop_value_tensor self) 0);
  if any_eq f32_one row then ret true else ret false.

(** The attributes that the methods below name with an f-string.  Of the
    attributes of the object, [_optim_entity_step_key] and
    [_optim_relation_step_key] are the only ones of the form
    [_optim_{group_name}_step_key], and likewise for the three other forms;
    any other group name names no attribute. *)
Definition getattr_optim_step_key (self : SharedParameterClient)
  (group_name : string) : result (list Z) :=
  if String.eqb group_name "entity" then Ret (_optim_entity_step_key self)
  else if String.eqb group_name "relation" then Ret (_optim_relation_step_key self)
  else Raise AttributeError.

Definition getattr_optim_step_value_tensor (self : SharedParameterClient)
  (group_name : string) : result Tensor2 :=
  if String.eqb group_name "entity"
  then Ret (_optim_entity_step_value_tensor self)
  else if String.eqb group_name "relation"
  then Ret (_optim_relation_step_value_tensor self)
  else Raise AttributeError.

Definition getattr_lr_key (self : SharedParameterClient)
  (group_name : string) : result (list Z) :=
  if String.eqb group_name "entity" then Ret (_entity_lr_key self)
  else if String.eqb group_name "relation" then Ret (_relation_lr_key self)
  else Raise AttributeError.

Definition getattr_lr_tensor (self : SharedParameterClient)
  (group_name : string) : result Tensor2 :=
  if String.eqb group_name "entity" then Ret (_entity_lr_tensor self)
  else if String.eqb group_name "relation" then Ret (_relation_lr_tensor self)
  else Raise AttributeError.

(** New contents for the four tensors those names stand for. *)
Definition set_group_tensors
  (optim_entity optim_relation entity_lr relation_lr : Tensor2)
  (self : SharedParameterClient) : SharedParameterClient :=
  {| base := base self;
     parameters := parameters self;
     num_keys := num_keys self;
     lr_buffer := lr_buffer self;
     _stop_key := _stop_key self;
     _optim_entity_step_key := _optim_entity_step_key self;
     _optim_relation_step_key := _optim_relation_step_key self;
     _entity_lr_key := _entity_lr_key self;
     _relation_lr_key := _relation_lr_key self;
     _stop_value_tensor := _stop_value_tensor self;
     _optim_entity_step_value_tensor := optim_entity;
     _optim_relation_step_value_tensor := optim_relation;
     _entity_lr_tensor := entity_lr;
     _relation_lr_tensor := relation_lr;
     meta_key_tensor := meta_key_tensor self |}.

Definition set_optim_step_value_tensor (group_name : string) (t : Tensor2)
  (self : SharedParameterClient) : SharedParameterClient :=
  if String.eqb group_name "entity"
  then set_group_tensors t (_optim_relation_step_value_tensor self)
         (_entity_lr_tensor self) (_relation_lr_tensor self) self
  else if String.eqb group_name "relation"
  then set_group_tensors (_optim_entity_step_value_tensor self) t
         (_entity_lr_tensor self) (_relation_lr_tensor self) self
  else self.

Definition set_lr_tensor (group_name : string) (t : Tensor2)
  (self : SharedParameterClient) : SharedParameterClient :=
  if String.eqb group_name "entity"
  then set_group_tensors (_optim_entity_step_value_tensor self)
         (_optim_relation_step_value_tensor self) t (_relation_lr_tensor self)
         self
  else if String.eqb group_name "relation"
  then set_group_tensors (_optim_entity_step_value_tensor self)
         (_optim_relation_step_value_tensor self) (_entity_lr_tensor self) t
         self
  else self.

Definition step_optim (group_name : string) (parameter_index : Z)
  : M SharedParameterClient unit :=
  do self <- get;
  do key <- lift (getattr_optim_step_key self group_name);
  do ones <- lift (torch_ones 1 (dim self));
  push key ones false.

(** The value of [.item()] is the float32 element itself. *)
Definition get_step_optim (group_name : string) (parameter_index : Z)
  : M SharedParameterClient f32 :=
  do self <- get;
  do key <- lift (getattr_optim_step_key self group_name);
  do buf <- lift (getattr_optim_step_value_tensor self group_name);
  do r <- pull key (Some buf) false;
  exec (match pull_tensor_after r with
        | Some t => put (set_optim_step_value_tensor group_name t self)
        | None => ret tt
        end);
  do self <- get;
  do buf <- lift (getattr_optim_step_value_tensor self group_name);
  lift (item_at buf 0 0).

Definition get_lr (group_name : string) : M SharedParameterClient f32 :=
  do self <- get;
  do key <- lift (getattr_lr_key self group_name);
  do buf <- lift (getattr_lr_tensor self group_name);
  do r <- pull key (Some buf) false;
  exec (match pull_tensor_after r with
        | Some t => put (set_lr_tensor group_name t self)
        | None => ret tt
        end);
  do self <- get;
  do buf <- lift (getattr_lr_tensor self group_name);
  lift (item_at buf 0 0).

(** [lr] is the float32 value that the assignment leaves in the tensor. *)
Definition set_lr (group_name : string) (lr : f32)
  : M SharedParameterClient unit :=
  do self <- get;
  do t <- lift (getattr_lr_tensor self group_name);
  exec put (set_lr_tensor group_name (fill t lr) self);
  do self <- get;
  do key <- lift (getattr_lr_key self group_name);
  do t <- lift (getattr_lr_tensor self group_name);
  set key t false.
End Shared.
Arguments SharedParameterClient : clear implicits.
End Shared.

(** ** Point-to-point messages of [torch.distributed] *)

Inductive tensor : Type :=
| TLong (l : list Z)
| TFloat1 (l : list f32)
| TFloat2 (t : Tensor2).

(** The process group as one worker sees it: what it has sent so far, each
    message with its destination rank and in the order of sending, and the
    messages that are going to reach it, each with its source rank.  A send
    completes at once; a receive completes when a message of its source is
    there. *)
Record Net : Type := mkNet {
  sent : list (Z * tensor);
  inbox : list (Z * tensor);
}.

(** The first message from [src], and the inbox without it. *)
Fixpoint take_from (src : Z) (box : list (Z * tensor))
  : option (tensor * list (Z * tensor)) :=
  match box with
  | [] => None
  | (r, t) :: rest =>
      if r =? src then Some (t, rest)
      else match take_from src rest with
           | Some (t', rest') => Some (t', (r, t) :: rest')
           | None => None
           end
  end.

(** A receive fills a buffer with a message of the buffer's own type and
    shape. *)
Definition same_shape (buf msg : tensor) : bool :=
  match buf, msg with
  | TLong b, TLong m => (length b =? length m)%nat
  | TFloat1 b, TFloat1 m => (length b =? length m)%nat
  | TFloat2 b, TFloat2 m =>
      (nrows b =? nrows m)%nat && (ncols b =? ncols m)%nat
  | _, _ => false
  end.

(** The table of command codes, [TORCH_PARAMETER_SERVER_CMDS] of
    [kge.distributed.parameter_server], is not part of the file: the codes
    are parameters, the names are the ones the client uses. *)
Class TORCH_PARAMETER_SERVER_CMDS : Type := {
  PULL_CMD : Z;
  PUSH_CMD : Z;
  SET_CMD : Z;
  SHUTDOWN_CMD : Z;
  STEP_OPTIM_CMD : Z;
  GET_OPTIM_STEP_CMD : Z;
  GET_ENTITY_LR_CMD : Z;
  GET_RELATION_LR_CMD : Z;
  SET_ENTITY_LR_CMD : Z;
  SET_RELATION_LR_CMD : Z;
}.

(** [str.upper()] on ASCII letters. *)
Definition upper_ascii (c : ascii) : ascii :=
  let n := nat_of_ascii c in
  if ((97 <=? n) && (n <=? 122))%nat then ascii_of_nat (n - 32) else c.

Fixpoint upper (s : string) : string :=
  match s with
  | EmptyString => EmptyString
  | String c rest => String (upper_ascii c) (upper rest)
  end.

(** [getattr(TORCH_PARAMETER_SERVER_CMDS, name)] *)
Definition getattr_cmd {cmds : TORCH_PARAMETER_SERVER_CMDS} (name : string)
  : result Z :=
  if String.eqb name "PULL_CMD" then Ret PULL_CMD
  else if String.eqb name "PUSH_CMD" then Ret PUSH_CMD
  else if String.eqb name "SET_CMD" then Ret SET_CMD
  else if String.eqb name "SHUTDOWN_CMD" then Ret SHUTDOWN_CMD
  else if String.eqb name "STEP_OPTIM_CMD" then Ret STEP_OPTIM_CMD
  else if String.eqb name "GET_OPTIM_STEP_CMD" then Ret GET_OPTIM_STEP_CMD
  else if String.eqb name "GET_ENTITY_LR_CMD" then Ret GET_ENTITY_LR_CMD
  else if String.eqb name "GET_RELATION_LR_CMD" then Ret GET_RELATION_LR_CMD
  else if String.eqb name "SET_ENTITY_LR_CMD" then Ret SET_ENTITY_LR_CMD
  else if String.eqb name "SET_RELATION_LR_CMD" then Ret SET_RELATION_LR_CMD
  else Raise AttributeError.

(** ** [class TorchParameterClient]: commands sent to one server rank *)
Module Torch.
Section Torch.
Context {Config Group : Type} {misc : Misc Config Group}.
Context {cmds : TORCH_PARAMETER_SERVER_CMDS}.

Record TorchParameterClient : Type := {
  base : Kge.KgeParameterClient Group;
  server_rank : Z;
  num_keys : Z;
  lr_buffer : list f32;
  _stop_key : list Z;
  _stop_value_tensor : Tensor2;
}.

Definition dim (self : TorchParameterClient) : Z := Kge.dim (base self).
Definition num_meta_keys (self : TorchParameterClient) : Z :=
  Kge.num_meta_keys (base self).

Definition __init__ (config : Config) (server_rank rank num_keys : Z)
  : result TorchParameterClient :=
  let base := Kge.__init__ config rank in
  try stop_value_tensor <- torch_zeros 1 (Kge.dim base);
  Ret {| base := base;
         server_rank := server_rank;
         num_keys := num_keys;
         lr_buffer := [f32_zero];
         _stop_key := [num_keys - Kge.num_meta_keys base];
         _stop_value_tensor := stop_value_tensor |}.

(** A call runs on the client object and the process group. *)
Record state : Type := mkState { self : TorchParameterClient; net : Net }.

Definition set_lr_buffer (b : list f32) (c : TorchParameterClient)
  : TorchParameterClient :=
  {| base := base c; server_rank := server_rank c; num_keys := num_keys c;
     lr_buffer := b;
     _stop_key := _stop_key c; _stop_value_tensor := _stop_value_tensor c |}.

Definition set_stop_value_tensor (t : Tensor2) (c : TorchParameterClient)
  : TorchParameterClient :=
  {| base := base c; server_rank := server_rank c; num_keys := num_keys c;
     lr_buffer := lr_buffer c;
     _stop_key := _stop_key c; _stop_value_tensor := t |}.

Definition this : M state TorchParameterClient :=
  fun s => (Ret (self s), s).

Definition assign (f : TorchParameterClient -> TorchParameterClient)
  : M state unit :=
  fun s => (Ret tt, mkState (f (self s)) (net s)).

(** [dist.send(t, dst=dst)] *)
Definition send (t : tensor) (dst : Z) : M state unit :=
  fun s =>
    (Ret tt,
     mkState (self s) (mkNet (sent (net s) ++ [(dst, t)]) (inbox (net s)))).

(** [dist.recv(buf, src=src)]: the contents of [buf] afterwards. *)
Definition recv (buf : tensor) (src : Z) : M state tensor :=
  fun s =>
    match take_from src (inbox (net s)) with
    | None => (Blocked, s)
    | Some (msg, rest) =>
        let s' := mkState (self s) (mkNet (sent (net s)) rest) in
        if same_shape buf msg then (Ret msg, s') else (Raise RuntimeError, s')
    end.

Definition len {A} (l : list A) : Z := Z.of_nat (length l).

Definition pull (keys : list Z) (pull_tensor : option Tensor2)
    (asynchronous : bool) : M state pulled :=
  do c <- this;
  let cmd := [PULL_CMD; len keys] in
  exec send (TLong cmd) (server_rank c);
  exec send (TLong keys) (server_rank c);
  do buf <- match pull_tensor with
            | None => lift (torch_zeros (len keys) (dim c))
            | Some b => ret b
            end;
  do got <- recv (TFloat2 buf) (server_rank c);
  ret (mkPulled None
         match pull_tensor, got with
         | Some _, TFloat2 t => Some t
         | _, _ => None
         end).

Definition push (keys : list Z) (push_tensor : Tensor2) (asynchronous : bool)
  : M state unit :=
  do c <- this;
  let cmd := [PUSH_CMD; len keys] in
  exec send (TLong cmd) (server_rank c);
  exec send (TLong keys) (server_rank c);
  send (TFloat2 push_tensor) (server_rank c).

Definition set (keys : list Z) (set_tensor : Tensor2) (asynchronous : bool)
  : M state unit :=
  do c <- this;
  let cmd := [SET_CMD; len keys] in
  exec send (TLong cmd) (server_rank c);
  exec send (TLong keys) (server_rank c);
  send (TFloat2 set_tensor) (server_rank c).

Definition localize (keys : list Z) (asynchronous : bool) : M state unit :=
  ret tt.

Definition stop : M state unit :=
  do c <- this;
  do ones <- lift (torch_ones 1 (dim c));
  push (_stop_key c) ones false.

Definition shutdown : M state unit :=
  do c <- this;
  let cmd := [SHUTDOWN_CMD; 0] in
  send (TLong cmd) (server_rank c).

Definition is_stopped : M state bool :=
  do c <- this;
  do r <- pull (_stop_key c) (Some (_stop_value_tensor c)) false;
  exec (match pull_tensor_after r with
        | Some t => assign (set_stop_value_tensor t)
        | None => ret tt
        end);
  do c <- this;
  do row <- lift (row_at (_stop_value_tensor c) 0);
  if any_eq f32_one row then ret true else ret false.

Definition step_optim (group_name : string) : M state unit :=
  do c <- this;
  let parameter_index := if String.eqb group_name "entity" then 0 else 1 in
  let cmd := [STEP_OPTIM_CMD; parameter_index] in
  send (TLong cmd) (server_rank c).

Definition get_step_optim (group_name : string) : M state Z :=
  do c <- this;
  let parameter_index := if String.eqb group_name "entity" then 0 else 1 in
  let cmd := [GET_OPTIM_STEP_CMD; parameter_index] in
  exec send (TLong cmd) (server_rank c);
  do got <- recv (TLong cmd) (server_rank c);
  match got with
  | TLong (_ :: x :: _) => ret x
  | _ => raise IndexError
  end.

Definition get_lr (group_name : string) : M state f32 :=
  do c <- this;
  do code <- lift (getattr_cmd ("GET_" ++ upper group_name ++ "_LR_CMD"));
  let cmd := [code; 0] in
  exec send (TLong cmd) (server_rank c);
  do got <- recv (TFloat1 (lr_buffer c)) (server_rank c);
  exec (match got with
        | TFloat1 b => assign (set_lr_buffer b)
        | _ => ret tt
        end);
  do c <- this;
  match lr_buffer c with
  | x :: _ => ret x
  | [] => raise IndexError
  end.

Definition set_lr (group_name : string) (lr : f32) : M state unit :=
  do c <- this;
  do code <- lift (getattr_cmd ("SET_" ++ upper group_name ++ "_LR_CMD"));
  let cmd := [code; 0] in
  exec send (TLong cmd) (server_rank c);
  exec assign (set_lr_buffer (<[0%nat := lr]> (lr_buffer c)));
  do c <- this;
  send (TFloat1 (lr_buffer c)) (server_rank c).
End Torch.
Arguments TorchParameterClient : clear implicits.
Arguments state : clear implicits.
End Torch.

(** ** [class LapseParameterClient]: a worker of the external engine

    The client inherits its data operations from the engine's worker class
    ([adaps.Worker]), which is not part of the package.  The client is
    defined over any implementation of that class: [Worker] is the state of
    the inherited part of the object, [Handle] what its calls return. *)
Class LapseWorker (Server Worker Handle : Type) : Type := {
  (** [LapseWorker.__init__(self, customer_id, lapse_server)] *)
  worker_init : Z -> Server -> Worker;
  (** the attribute [num_keys], which the client reads and never assigns *)
  worker_num_keys : Worker -> Z;
  worker_get_key_size : Worker -> Z;
  (** [pull(keys, vals, asynchronous)]: the value of the call and the
      contents of [vals] afterwards *)
  worker_pull : list Z -> Tensor2 -> bool -> M Worker (Handle * Tensor2);
  worker_push : list Z -> Tensor2 -> bool -> M Worker Handle;
  worker_set : list Z -> Tensor2 -> bool -> M Worker Handle;
}.

Module Lapse.
Section Lapse.
Context {Config Group : Type} {misc : Misc Config Group}.
Context {Server Worker Handle : Type} {engine : LapseWorker Server Worker Handle}.
(** What [torch.empty] finds in the memory it is given. *)
Variable uninitialised : f32.

Record LapseParameterClient : Type := {
  base : Kge.KgeParameterClient Group;
  worker : Worker;
  key_size : Z;
  _stop_key : list Z;
  _optim_entity_step_key : list Z;
  _optim_relation_step_key : list Z;
  _entity_lr_key : list Z;
  _relation_lr_key : list Z;
  _stop_value_tensor : Tensor2;
  _optim_entity_step_value_tensor : Tensor2;
  _optim_relation_step_value_tensor : Tensor2;
  _entity_lr_tensor : Tensor2;
  _relation_lr_tensor : Tensor2;
  meta_key_tensor : Tensor2;
}.

Definition num_keys (self : LapseParameterClient) : Z :=
  worker_num_keys (worker self).
Definition num_meta_keys (self : LapseParameterClient) : Z :=
  Kge.num_meta_keys (base self).

Definition __init__ (config : Config) (customer_id rank : Z)
    (lapse_server : Server) : result LapseParameterClient :=
  let base := Kge.__init__ config rank in
  let w := worker_init customer_id lapse_server in
  let key_size := worker_get_key_size w in
  let num_keys := worker_num_keys w in
  let num_meta_keys := Kge.num_meta_keys base in
  try stop_value_tensor <- torch_zeros 1 key_size;
  try optim_entity_step_value_tensor <- torch_zeros 1 key_size;
  try optim_relation_step_value_tensor <- torch_zeros 1 key_size;
  try entity_lr_tensor <- torch_zeros 1 key_size;
  try relation_lr_tensor <- torch_zeros 1 key_size;
  try meta_key_tensor <- torch_zeros num_meta_keys key_size;
  Ret {| base := base;
         worker := w;
         key_size := key_size;
         _stop_key := [num_keys - num_meta_keys];
         _optim_entity_step_key := [num_keys - num_meta_keys + 1];
         _optim_relation_step_key := [num_keys - num_meta_keys + 2];
         _entity_lr_key := [num_keys - num_meta_keys + 3];
         _relation_lr_key := [num_keys - num_meta_keys + 4];
         _stop_value_tensor := stop_value_tensor;
         _optim_entity_step_value_tensor := optim_entity_step_value_tensor;
         _optim_relation_step_value_tensor := optim_relation_step_value_tensor;
         _entity_lr_tensor := entity_lr_tensor;
         _relation_lr_tensor := relation_lr_tensor;
         meta_key_tensor := meta_key_tensor |}.

Definition set_worker (w : Worker) (self : LapseParameterClient)
  : LapseParameterClient :=
  {| base := base self;
     worker := w;
     key_size := key_size self;
     _stop_key := _stop_key self;
     _optim_entity_step_key := _optim_entity_step_key self;
     _optim_relation_step_key := _optim_relation_step_key self;
     _entity_lr_key := _entity_lr_key self;
     _relation_lr_key := _relation_lr_key self;
     _stop_value_tensor := _stop_value_tensor self;
     _optim_entity_step_value_tensor := _optim_entity_step_value_tensor self;
     _optim_relation_step_value_tensor := _optim_relation_step_value_tensor self;
     _entity_lr_tensor := _entity_lr_tensor self;
     _relation_lr_tensor := _relation_lr_tensor self;
     meta_key_tensor := meta_key_tensor self |}.

Definition set_stop_value_tensor (t : Tensor2) (self : LapseParameterClient)
  : LapseParameterClient :=
  {| base := base self;
     worker := worker self;
     key_size := key_size self;
     _stop_key := _stop_key self;
     _optim_entity_step_key := _optim_entity_step_key self;
     _optim_relation_step_key := _optim_relation_step_key self;
     _entity_lr_key := _entity_lr_key self;
     _relation_lr_key := _relation_lr_key self;
     _stop_value_tensor := t;
     _optim_entity_step_value_tensor := _optim_entity_step_value_tensor self;
     _optim_relation_step_value_tensor := _optim_relation_step_value_tensor self;
     _entity_lr_tensor := _entity_lr_tensor self;
     _relation_lr_tensor := _relation_lr_tensor self;
     meta_key_tensor := meta_key_tensor self |}.

(** [super(LapseParameterClient, self).f(...)]: a call of the inherited
    method on the worker part of the object. *)
Definition super {A} (m : M Worker A) : M LapseParameterClient A :=
  fun self =>
    let '(r, w) := m (worker self) in (r, set_worker w self).

(** [torch.empty([n, d], dtype=torch.float32)] *)
Definition torch_empty (n d : Z) : result Tensor2 :=
  torch_full n d uninitialised.

(** The value of the call is the engine's; the second component is the
    caller's buffer afterwards, [None] when the caller passed none. *)
Definition pull (keys : list Z) (pull_tensor : option Tensor2)
    (asynchronous : bool) : M LapseParameterClient (Handle * option Tensor2) :=
  do self <- get;
  do buf <- match pull_tensor with
            | None => lift (torch_empty (Z.of_nat (length keys)) (key_size self))
            | Some b => ret b
            end;
  do r <- super (worker_pull keys buf asynchronous);
  ret (r.1, match pull_tensor with
            | Some _ => Some r.2
            | None => None
            end).

Definition push (keys : list Z) (push_tensor : Tensor2) (asynchronous : bool)
  : M LapseParameterClient Handle :=
  super (worker_push keys push_tensor asynchronous).

Definition set (keys : list Z) (set_tensor : Tensor2) (asynchronous : bool)
  : M LapseParameterClient unit :=
  exec super (worker_set keys set_tensor asynchronous);
  ret tt.

Definition localize (keys : list Z) (asynchronous : bool)
  : M LapseParameterClient unit := raise NotImplementedError.

(** [stop] and [is_stopped] call the inherited methods without the
    [asynchronous] argument; its default is taken to be [False]. *)
Definition stop : M LapseParameterClient unit :=
  do self <- get;
  do ones <- lift (torch_ones 1 (key_size self));
  exec super (worker_push (_stop_key self) ones false);
  ret tt.

Definition is_stopped : M LapseParameterClient bool :=
  do self <- get;
  do r <- super (worker_pull (_stop_key self) (_stop_value_tensor self) false);
  do self <- get;
  exec put (set_stop_value_tensor r.2 self);
  do self <- get;
  do x <- lift (item_at (_stop_value_tensor self) 0 0);
  if f32_eqb x f32_one then ret true else ret false.
End Lapse.
Arguments LapseParameterClient : clear implicits.
End Lapse.

(** * The vocabulary of the statements *)

(** The keys of a call that all lie in [0, n). *)
Definition in_bounds (n : nat) (keys : list Z) : Prop :=
  Forall (fun k => 0 <= k < Z.of_nat n) keys.

Definition positions (keys : list Z) : list nat := map Z.to_nat keys.

(** Reading rows at keys inside the table. *)
Definition picked_rows (rs : list (list f32)) (keys : list Z)
  : list (list f32) :=
  map (fun k => default [] (rs !! Z.to_nat k)) keys.

(** The row that a sequence of assignments leaves at position [j], when one
    of them writes there. *)
Fixpoint last_write (j : nat) (upd : list (nat * list f32))
  : option (list f32) :=
  match upd with
  | [] => None
  | (i, v) :: rest =>
      match last_write j rest with
      | Some w => Some w
      | None => if decide (i = j) then Some v else None
      end
  end.

(** The rows a [push] writes: what was there plus what is pushed. *)
Definition pushed_rows (rs : list (list f32)) (keys : list Z) (v : Tensor2)
  : list (list f32) :=
  zip_with (zip_with f32_add) (picked_rows rs keys) (rows v).

(** The float32 sums of a double [push] can be regrouped: at every key of
    the call and every column, adding [a] and then [b] to the stored value
    gives what adding their sum gives. *)
Definition regroups (table : Tensor2) (keys : list Z) (a b : Tensor2) : Prop :=
  forall n k j x u v,
    keys !! n = Some k ->
    rows table !! Z.to_nat k ≫= (.!! j) = Some x ->
    rows a !! n ≫= (.!! j) = Some u ->
    rows b !! n ≫= (.!! j) = Some v ->
    f32_add (f32_add x u) v = f32_add x (f32_add u v).

(** What [is_stopped] tests on the row it pulled. *)
Definition some_component_is_one (row : list f32) : Prop :=
  exists x, x ∈ row /\ f32_eqb x f32_one = true.

Definition first_component_is_one (row : list f32) : Prop :=
  exists x, row !! 0%nat = Some x /\ f32_eqb x f32_one = true.

(** The row stored at key [k]. *)
Definition stored_row (table : Tensor2) (k : Z) : list f32 :=
  default [] (rows table !! Z.to_nat k).

(** The messages a call sends, in order. *)
Definition sent_by {Group A : Type} (call : M (Torch.state Group) A)
  (s : Torch.state Group) : list (Z * tensor) :=
  drop (length (sent (Torch.net s))) (sent (Torch.net (call s).2)).

(** The calls of the client that talk to the server, with their arguments. *)
Inductive request : Type :=
| Pull (keys : list Z) (pull_tensor : option Tensor2) (asynchronous : bool)
| Push (keys : list Z) (push_tensor : Tensor2) (asynchronous : bool)
| Set_ (keys : list Z) (set_tensor : Tensor2) (asynchronous : bool)
| Stop
| IsStopped
| Shutdown
| StepOptim (group_name : string)
| GetStepOptim (group_name : string)
| GetLr (group_name : string)
| SetLr (group_name : string) (lr : f32).

Definition perform {Group : Type} {cmds : TORCH_PARAMETER_SERVER_CMDS}
  (r : request) : M (Torch.state Group) unit :=
  match r with
  | Pull keys pull_tensor a => exec Torch.pull keys pull_tensor a; ret tt
  | Push keys t a => Torch.push keys t a
  | Set_ keys t a => Torch.set keys t a
  | Stop => Torch.stop
  | IsStopped => exec Torch.is_stopped; ret tt
  | Shutdown => Torch.shutdown
  | StepOptim g => Torch.step_optim g
  | GetStepOptim g => exec Torch.get_step_optim g; ret tt
  | GetLr g => exec Torch.get_lr g; ret tt
  | SetLr g lr => Torch.set_lr g lr
  end.

(** The index that [step_optim] and [get_step_optim] put in the header. *)
Definition parameter_index (group_name : string) : Z :=
  if String.eqb group_name "entity" then 0 else 1.



(** Messages addressed to the server of the client, and the state after the
    client has sent them. *)
Definition to_server {Group : Type} (s : Torch.state Group)
  (msgs : list tensor) : list (Z * tensor) :=
  map (fun t => (Torch.server_rank (Torch.self s), t)) msgs.

Definition after_sending {Group : Type} (s : Torch.state Group)
  (msgs : list tensor) : Torch.state Group :=
  Torch.mkState (Torch.self s)
    (mkNet (sent (Torch.net s) ++ to_server s msgs) (inbox (Torch.net s))).

(** The five meta keys of the local-memory client, in the order of the
    constructor. *)
Definition meta_keys {Group : Type} (self : Shared.SharedParameterClient Group)
  : list Z :=
  Shared._stop_key self ++ Shared._optim_entity_step_key self
  ++ Shared._optim_relation_step_key self ++ Shared._entity_lr_key self
  ++ Shared._relation_lr_key self.

(** The key in [0, n) that a negative key of a table of [n] rows stands
    for. *)
Definition from_the_end (n : nat) (k : Z) : Z :=
  if k <? 0 then k + Z.of_nat n else k.

(** The keys of two calls have no key in common. *)
Definition disjoint_keys (keys1 keys2 : list Z) : Prop :=
  forall k, k ∈ keys1 -> k ∈ keys2 -> False.

(** What a call may do to the process group: append messages for the server
    to what was sent, and take at most one message of the server out of the
    inbox. *)
Definition one_round_trip {Group : Type} (s s' : Torch.state Group) : Prop :=
  (exists msgs, sent (Torch.net s') = sent (Torch.net s) ++ to_server s msgs)
  /\ (inbox (Torch.net s') = inbox (Torch.net s)
      \/ exists msg,
           take_from (Torch.server_rank (Torch.self s)) (inbox (Torch.net s))
           = Some (msg, inbox (Torch.net s'))).

(** The requests that only send. *)
Definition sends_only (r : request) : bool :=
  match r with
  | Push _ _ _ | Set_ _ _ _ | Stop | Shutdown | StepOptim _ | SetLr _ _ => true
  | _ => false
  end.

(** No component of the rows is the negative zero of float32. *)
Definition no_negative_zero (rs : list (list f32)) : Prop :=
  Forall (Forall (fun x => x <> S754_zero true)) rs.

(** * A concrete setting for the examples *)
Module Example.
(** A configuration that holds just the three numbers the clients ask for. *)
Record Config : Type := {
  dim : Z;
  optimizer_dim : Z;
  num_meta_keys : Z;
}.

Definition misc : Misc Config unit := {|
  lookup_embedder_dim c := dim c;
  get_optimizer_dim c _ := optimizer_dim c;
  get_num_meta_keys c := num_meta_keys c;
  initialize_worker_groups _ _ := (tt, tt);
|}.

Definition cmds : TORCH_PARAMETER_SERVER_CMDS := {|
  PULL_CMD := 0;
  PUSH_CMD := 1;
  SET_CMD := 2;
  SHUTDOWN_CMD := 3;
  STEP_OPTIM_CMD := 4;
  GET_OPTIM_STEP_CMD := 5;
  GET_ENTITY_LR_CMD := 6;
  GET_RELATION_LR_CMD := 7;
  SET_ENTITY_LR_CMD := 8;
  SET_RELATION_LR_CMD := 9;
|}.

(** An engine that keeps the whole table in the worker itself. *)
Definition table_pull (keys : list Z) (vals : Tensor2) (asynchronous : bool)
  : M Tensor2 (unit * Tensor2) :=
  do table <- get;
  do picked <- lift (index_select table keys);
  do vals' <- lift (copy_ vals picked);
  ret (tt, vals').

Definition table_push (keys : list Z) (vals : Tensor2) (asynchronous : bool)
  : M Tensor2 unit :=
  do table <- get;
  do picked <- lift (index_select table keys);
  do summed <- lift (iadd picked vals);
  do table' <- lift (index_put table keys summed);
  put table'.

Definition table_set (keys : list Z) (vals : Tensor2) (asynchronous : bool)
  : M Tensor2 unit :=
  do table <- get;
  do table' <- lift (index_put table keys vals);
  put table'.

Definition engine : LapseWorker Tensor2 Tensor2 unit := {|
  worker_init _ table := table;
  worker_num_keys table := Z.of_nat (nrows table);
  worker_get_key_size table := Z.of_nat (ncols table);
  worker_pull := table_pull;
  worker_push := table_push;
  worker_set := table_set;
|}.

(** Clients as their constructors build them, for a configuration with the
    given width and number of meta keys. *)
Definition config (d m : Z) : Config :=
  {| dim := d; optimizer_dim := 0; num_meta_keys := m |}.

Definition or_else {A} (r : result A) (a : A) : A :=
  match r with
  | Ret x => x
  | _ => a
  end.

Definition empty_tensor : Tensor2 := mkTensor2 0 [].

Definition shared (d m : Z) (table : Tensor2)
  : Shared.SharedParameterClient unit :=
  or_else (Shared.__init__ (misc:=misc) (config d m) 0 table)
    {| Shared.base := Kge.__init__ (misc:=misc) (config d m) 0;
       Shared.parameters := table;
       Shared.num_keys := 0;
       Shared.lr_buffer := [];
       Shared._stop_key := [];
       Shared._optim_entity_step_key := [];
       Shared._optim_relation_step_key := [];
       Shared._entity_lr_key := [];
       Shared._relation_lr_key := [];
       Shared._stop_value_tensor := empty_tensor;
       Shared._optim_entity_step_value_tensor := empty_tensor;
       Shared._optim_relation_step_value_tensor := empty_tensor;
       Shared._entity_lr_tensor := empty_tensor;
       Shared._relation_lr_tensor := empty_tensor;
       Shared.meta_key_tensor := empty_tensor |}.

Definition zeros (n d : Z) : Tensor2 := or_else (torch_zeros n d) empty_tensor.

(** The command-protocol client of rank 1 with its server at rank 0, before
    it has sent anything, and the replies that are going to reach it. *)
Definition torch_client (d m n : Z) : Torch.TorchParameterClient unit :=
  or_else (Torch.__init__ (misc:=misc) (config d m) 0 1 n)
    {| Torch.base := Kge.__init__ (misc:=misc) (config d m) 1;
       Torch.server_rank := 0;
       Torch.num_keys := n;
       Torch.lr_buffer := [];
       Torch._stop_key := [];
       Torch._stop_value_tensor := empty_tensor |}.

Definition torch (d m n : Z) (replies : list tensor) : Torch.state unit :=
  Torch.mkState (torch_client d m n) (mkNet [] (map (fun t => (0, t)) replies)).

(** The client of the engine above, on a given table. *)
Definition lapse (m : Z) (table : Tensor2)
  : Lapse.LapseParameterClient unit Tensor2 :=
  or_else (Lapse.__init__ (misc:=misc) (engine:=engine)
             (config (Z.of_nat (ncols table)) m) 0 1 table)
    {| Lapse.base := Kge.__init__ (misc:=misc) (config 0 m) 1;
       Lapse.worker := table;
       Lapse.key_size := 0;
       Lapse._stop_key := [];
       Lapse._optim_entity_step_key := [];
       Lapse._optim_relation_step_key := [];
       Lapse._entity_lr_key := [];
       Lapse._relation_lr_key := [];
       Lapse._stop_value_tensor := empty_tensor;
       Lapse._optim_entity_step_value_tensor := empty_tensor;
       Lapse._optim_relation_step_value_tensor := empty_tensor;
       Lapse._entity_lr_tensor := empty_tensor;
       Lapse._relation_lr_tensor := empty_tensor;
       Lapse.meta_key_tensor := empty_tensor |}.

(** Small float32 values. *)
Definition two : f32 := f32_of_Z 2.
Definition big : f32 := f32_of_Z 16777216.
End Example.

(** * Facts about tensors *)

Lemma expand_row_same d r : expand_row d d r = r.
Proof. unfold expand_row. by rewrite decide_True. Qed.

Lemma expand_exact n d t : nrows t = n -> ncols t = d -> expand n d t = Some t.
Proof.
  intros Hn Hd. destruct t as [c rs]. unfold nrows in Hn. simpl in *. subst.
  unfold expand, broadcastable, nrows. simpl.
  rewrite !Nat.eqb_refl. simpl.
  rewrite decide_True by done.
  do 2 f_equal. rewrite <- (map_id rs) at 2.
  apply map_ext. intros r. apply expand_row_same.
Qed.

Lemma copy_exact dst src :
  nrows src = nrows dst -> ncols src = ncols dst -> copy_ dst src = Ret src.
Proof. intros Hn Hd. unfold copy_. by rewrite expand_exact. Qed.

Lemma wrap_index_inside n k :
  0 <= k < Z.of_nat n -> wrap_index n k = Some (Z.to_nat k).
Proof.
  intros [H0 H1]. unfold wrap_index.
  apply Z.leb_le in H0. apply Z.ltb_lt in H1. by rewrite H0, H1.
Qed.

Lemma wrap_index_beyond n k : Z.of_nat n <= k -> wrap_index n k = None.
Proof.
  intros H. unfold wrap_index.
  assert ((k <? Z.of_nat n) = false) as -> by (apply Z.ltb_ge; lia).
  assert ((k <? 0) = false) as -> by (apply Z.ltb_ge; lia).
  by rewrite !andb_false_r.
Qed.

Lemma wrap_index_lt n k i : wrap_index n k = Some i -> (i < n)%nat.
Proof.
  unfold wrap_index.
  destruct ((0 <=? k) && (k <? Z.of_nat n)) eqn:E1.
  - apply andb_true_iff in E1 as [H0 H1].
    apply Z.leb_le in H0. apply Z.ltb_lt in H1. intros [= <-]. lia.
  - destruct ((- Z.of_nat n <=? k) && (k <? 0)) eqn:E2; [|done].
    apply andb_true_iff in E2 as [H0 H1].
    apply Z.leb_le in H0. apply Z.ltb_lt in H1. intros [= <-]. lia.
Qed.

Lemma mapM_wrap_index n keys :
  in_bounds n keys -> mapM (wrap_index n) keys = Some (positions keys).
Proof.
  intros H. apply mapM_Some. unfold positions.
  induction H as [|k keys Hk _ IH]; simpl; constructor; auto.
  by apply wrap_index_inside.
Qed.

Lemma positions_lt n keys :
  in_bounds n keys -> Forall (fun i => (i < n)%nat) (positions keys).
Proof.
  unfold positions. induction 1 as [|k keys Hk _ IH]; simpl; constructor; auto.
  lia.
Qed.

Lemma positions_NoDup n keys :
  in_bounds n keys -> NoDup keys -> NoDup (positions keys).
Proof.
  unfold positions. induction 1 as [|k keys Hk Hks IH]; simpl; intros Hnd.
  - constructor.
  - apply NoDup_cons in Hnd as [Hnotin Hnd]. apply NoDup_cons. split; auto.
    intros Hin. apply Hnotin. apply list_elem_of_fmap in Hin as (k' & Heq & Hk').
    assert (0 <= k' < Z.of_nat n) as Hb.
    { eapply Forall_forall in Hks; [exact Hks|]. done. }
    assert (k = k') as -> by lia. done.
Qed.

Lemma index_select_in_bounds t keys :
  in_bounds (nrows t) keys ->
  index_select t keys = Ret (mkTensor2 (ncols t) (picked_rows (rows t) keys)).
Proof.
  intros H. unfold index_select.
  assert (mapM (fun k => i ← wrap_index (nrows t) k; rows t !! i) keys
          = Some (picked_rows (rows t) keys)) as ->; [|done].
  apply mapM_Some. unfold picked_rows.
  induction H as [|k keys Hk _ IH]; simpl; constructor; auto.
  rewrite wrap_index_inside by done. simpl.
  destruct (lookup_lt_is_Some_2 (rows t) (Z.to_nat k)) as [r Hr].
  { unfold nrows in Hk. lia. }
  by rewrite Hr.
Qed.

Lemma index_select_out_of_range t keys k :
  k ∈ keys -> Z.of_nat (nrows t) <= k -> index_select t keys = Raise IndexError.
Proof.
  intros Hin Hk. unfold index_select.
  destruct (mapM _ keys) as [rs|] eqn:E; [|done].
  exfalso. apply mk_is_Some, mapM_is_Some in E.
  eapply Forall_forall in E; [|exact Hin]. simpl in E.
  rewrite wrap_index_beyond in E by done. by destruct E.
Qed.

Lemma length_picked_rows rs keys : length (picked_rows rs keys) = length keys.
Proof. unfold picked_rows. by rewrite length_map. Qed.

(** ** Row assignments *)

Lemma length_scatter rs upd : length (scatter rs upd) = length rs.
Proof.
  unfold scatter. revert rs.
  induction upd as [|[i v] upd IH]; intros rs; simpl; [done|].
  by rewrite IH, length_insert.
Qed.

Lemma scatter_lookup rs upd j :
  scatter rs upd !! j =
  match last_write j upd with
  | Some w => if decide (j < length rs)%nat then Some w else None
  | None => rs !! j
  end.
Proof.
  unfold scatter. revert rs.
  induction upd as [|[i v] upd IH]; intros rs; simpl; [done|].
  rewrite IH, length_insert.
  destruct (last_write j upd) as [w|]; [done|].
  destruct (decide (i = j)) as [->|Hne].
  - destruct (decide (j < length rs)%nat) as [Hlt|Hge].
    + by apply list_lookup_insert_eq.
    + rewrite list_insert_ge by lia. apply lookup_ge_None. lia.
  - by apply list_lookup_insert_ne.
Qed.

Lemma last_write_zip_NoDup idx vs n i v :
  NoDup idx -> idx !! n = Some i -> vs !! n = Some v ->
  last_write i (zip idx vs) = Some v.
Proof.
  revert vs n.
  induction idx as [|i0 idx IH]; intros vs n Hnd Hi Hv; [done|].
  destruct vs as [|v0 vs]; [done|].
  apply NoDup_cons in Hnd as [Hnotin Hnd]. simpl.
  destruct n as [|n]; simpl in *.
  - injection Hi as ->. injection Hv as ->.
    assert (last_write i (zip idx vs) = None) as ->.
    { clear IH Hnd. revert vs.
      induction idx as [|i1 idx IH]; intros vs; [done|].
      destruct vs as [|v1 vs]; [done|]. simpl.
      apply not_elem_of_cons in Hnotin as [Hne Hnotin].
      rewrite IH by done. by rewrite decide_False. }
    by rewrite decide_True.
  - by rewrite (IH vs n).
Qed.

Lemma last_write_zip_is_Some idx vs ws j :
  length vs = length ws ->
  is_Some (last_write j (zip idx vs)) -> is_Some (last_write j (zip idx ws)).
Proof.
  revert vs ws.
  induction idx as [|i idx IH]; intros vs ws Hlen; simpl; [done|].
  destruct vs as [|v vs], ws as [|w ws]; simpl in *; try done.
  injection Hlen as Hlen. specialize (IH vs ws Hlen).
  destruct (last_write j (zip idx vs)).
  - intros _. destruct IH as [x ->]; [done|]. done.
  - destruct (decide (i = j)); [|by intros []].
    intros _. by destruct (last_write j (zip idx ws)).
Qed.

(** Writing the same keys a second time leaves only the second write. *)
Lemma scatter_twice rs idx vs ws :
  length vs = length ws ->
  scatter (scatter rs (zip idx vs)) (zip idx ws) = scatter rs (zip idx ws).
Proof.
  intros Hlen. apply list_eq. intros j.
  rewrite !scatter_lookup, length_scatter.
  destruct (last_write j (zip idx ws)) as [w|] eqn:Ew; [done|].
  destruct (last_write j (zip idx vs)) as [v|] eqn:Ev; [|done].
  exfalso. destruct (last_write_zip_is_Some idx vs ws j Hlen) as [x Hx].
  - by rewrite Ev.
  - congruence.
Qed.

(** Reading back what was just written, at keys that are all different. *)
Lemma picked_rows_scatter rs keys vs n :
  in_bounds n keys -> n = length rs -> NoDup keys -> length vs = length keys ->
  picked_rows (scatter rs (zip (positions keys) vs)) keys = vs.
Proof.
  intros Hb -> Hnd Hlen. apply list_eq. intros m.
  unfold picked_rows. rewrite list_lookup_fmap.
  destruct (keys !! m) as [k|] eqn:Ek; simpl.
  - destruct (lookup_lt_is_Some_2 vs m) as [v Hv].
    { rewrite Hlen. by eapply lookup_lt_Some. }
    rewrite Hv. f_equal. rewrite scatter_lookup.
    rewrite (last_write_zip_NoDup (positions keys) vs m (Z.to_nat k) v).
    + rewrite decide_True; [done|].
      eapply Forall_forall in Hb; [|by eapply list_elem_of_lookup_2]. lia.
    + by eapply positions_NoDup.
    + unfold positions. by rewrite list_lookup_fmap, Ek.
    + done.
  - symmetry. apply lookup_ge_None. rewrite Hlen.
    by apply lookup_ge_None.
Qed.

(** * The local-memory client on tables of the right shape *)
Section SharedFacts.
Context {Group : Type}.
Implicit Types (self : Shared.SharedParameterClient Group).

Lemma shared_pull_rows self keys buf asynchronous :
  in_bounds (nrows (Shared.parameters self)) keys ->
  nrows buf = length keys ->
  ncols buf = ncols (Shared.parameters self) ->
  Shared.pull keys (Some buf) asynchronous self =
  (Ret (mkPulled None
          (Some (mkTensor2 (ncols (Shared.parameters self))
                   (picked_rows (rows (Shared.parameters self)) keys)))),
   self).
Proof.
  intros Hb Hn Hd. unfold Shared.pull, bind, get, lift; simpl.
  rewrite index_select_in_bounds by done.
  rewrite copy_exact; [done| |done].
  unfold nrows at 1. simpl. by rewrite length_picked_rows.
Qed.

Lemma shared_set_rows self keys v asynchronous :
  in_bounds (nrows (Shared.parameters self)) keys ->
  nrows v = length keys ->
  ncols v = ncols (Shared.parameters self) ->
  Shared.set keys v asynchronous self =
  (Ret tt,
   Shared.set_parameters
     (mkTensor2 (ncols (Shared.parameters self))
        (scatter (rows (Shared.parameters self)) (zip (positions keys) (rows v))))
     self).
Proof.
  intros Hb Hn Hd. unfold Shared.set, bind, get, lift, put, index_put; simpl.
  rewrite expand_exact by done.
  by rewrite mapM_wrap_index.
Qed.

Lemma length_pushed_rows rs keys v :
  nrows v = length keys -> length (pushed_rows rs keys v) = length keys.
Proof.
  intros Hn. unfold pushed_rows.
  rewrite length_zip_with, length_picked_rows. unfold nrows in Hn. lia.
Qed.

Lemma shared_push_rows self keys v asynchronous :
  in_bounds (nrows (Shared.parameters self)) keys ->
  nrows v = length keys ->
  ncols v = ncols (Shared.parameters self) ->
  Shared.push keys v asynchronous self =
  (Ret tt,
   Shared.set_parameters
     (mkTensor2 (ncols (Shared.parameters self))
        (scatter (rows (Shared.parameters self))
           (zip (positions keys)
              (pushed_rows (rows (Shared.parameters self)) keys v))))
     self).
Proof.
  intros Hb Hn Hd. unfold Shared.push, bind, get, lift, put; simpl.
  rewrite index_select_in_bounds by done.
  unfold iadd. simpl.
  rewrite expand_exact; [|by unfold nrows; simpl; rewrite length_picked_rows|done].
  unfold index_put. simpl.
  rewrite expand_exact; [|by unfold nrows; simpl; apply length_pushed_rows|done].
  by rewrite mapM_wrap_index.
Qed.
End SharedFacts.

Lemma zip_with_reassoc {A} (f : A -> A -> A) (l k m : list A) :
  (forall i x y z,
      l !! i = Some x -> k !! i = Some y -> m !! i = Some z ->
      f (f x y) z = f x (f y z)) ->
  zip_with f (zip_with f l k) m = zip_with f l (zip_with f k m).
Proof.
  intros H. apply list_eq. intros i. rewrite !lookup_zip_with.
  destruct (l !! i) as [x|] eqn:El; simpl; [|done].
  destruct (k !! i) as [y|] eqn:Ek; simpl; [|done].
  destruct (m !! i) as [z|] eqn:Em; simpl; [|done].
  f_equal. by eapply H.
Qed.

Lemma torch_add_same_shape a b n d :
  nrows a = n -> ncols a = d -> nrows b = n -> ncols b = d ->
  torch_add a b =
  Ret (mkTensor2 d (zip_with (zip_with f32_add) (rows a) (rows b))).
Proof.
  intros Ha Hda Hb Hdb. unfold torch_add.
  assert ((if decide (nrows a = 1%nat) then nrows b else nrows a) = n) as ->.
  { case_decide; congruence. }
  assert ((if decide (ncols a = 1%nat) then ncols b else ncols a) = d) as ->.
  { case_decide; congruence. }
  by rewrite !expand_exact.
Qed.

Section SharedLaws.
Context {Group : Type}.
Implicit Types (self : Shared.SharedParameterClient Group).

Lemma pushed_rows_regroup table keys a b :
  in_bounds (nrows table) keys ->
  regroups table keys a b ->
  zip_with (zip_with f32_add) (pushed_rows (rows table) keys a) (rows b) =
  pushed_rows (rows table) keys
    (mkTensor2 (ncols table) (zip_with (zip_with f32_add) (rows a) (rows b))).
Proof.
  intros Hb Hre. unfold pushed_rows. simpl.
  apply zip_with_reassoc. intros n p ra rb Hp Ha Hrb.
  apply zip_with_reassoc. intros j x u v Hx Hu Hv.
  unfold picked_rows in Hp. rewrite list_lookup_fmap in Hp.
  destruct (keys !! n) as [k|] eqn:Ek; [|done]. simpl in Hp.
  injection Hp as <-.
  apply (Hre n k j x u v Ek).
  - eapply Forall_forall in Hb; [|by eapply list_elem_of_lookup_2].
    destruct (lookup_lt_is_Some_2 (rows table) (Z.to_nat k)) as [r Hr].
    { unfold nrows in Hb. lia. }
    rewrite Hr in Hx |- *. done.
  - by rewrite Ha.
  - by rewrite Hrb.
Qed.
End SharedLaws.

(** Keys written out in a list are all different. *)
Ltac distinct_keys :=
  apply NoDup_ListNoDup; repeat constructor; simpl; lia.

(** * The claims *)

(** ** Round trip of [set] and [pull] *)

(** C8, as amended: on the local-memory client, for keys inside the table
    that are all different and rows of shape [(len(keys), D)], [set(keys,
    rows)] followed by [pull(keys, buf)] into a buffer of that shape leaves
    exactly [rows] in the buffer (the call itself returns nothing). *)
Theorem set_then_pull_returns_rows {Group : Type}
  (self : Shared.SharedParameterClient Group)
  (keys : list Z) (v buf : Tensor2) (a1 a2 : bool) :
  in_bounds (nrows (Shared.parameters self)) keys ->
  NoDup keys ->
  has_shape v (length keys) (ncols (Shared.parameters self)) ->
  has_shape buf (length keys) (ncols (Shared.parameters self)) ->
  (bind (Shared.set keys v a1)
     (fun _ => Shared.pull keys (Some buf) a2) self).1
  = Ret (mkPulled None (Some v)).
Proof.
intros Hb Hnd (Hvn & Hvd & _) (Hbn & Hbd & _).
unfold bind. rewrite shared_set_rows by done.
rewrite shared_pull_rows; simpl.
- rewrite (picked_rows_scatter _ _ _ (nrows (Shared.parameters self))); try done.
  destruct v as [c rs]. simpl in *. by subst.
- unfold nrows. simpl. rewrite length_scatter. exact Hb.
- done.
- done.
Qed.

Lemma set_then_pull_returns_rows_witness :
  (bind (Shared.set [1; 0] (mkTensor2 1 [[f32_one]; [Example.two]]) false)
     (fun _ => Shared.pull [1; 0] (Some (mkTensor2 1 [[f32_zero]; [f32_zero]])) false)
     (Example.shared 1 1 (mkTensor2 1 [[f32_zero]; [f32_zero]; [f32_zero]]))).1
  = Ret (mkPulled None (Some (mkTensor2 1 [[f32_one]; [Example.two]]))).
Proof.
apply set_then_pull_returns_rows.
- repeat constructor; simpl; lia.
- distinct_keys.
- repeat split; repeat constructor.
- repeat split; repeat constructor.
Defined.

(** C8 fails as stated: a key list may name a key twice, and then the row
    written last is read back at both places.  No table at all returns two
    different rows for one key. *)
Lemma set_then_pull_duplicate_key :
  (bind (Shared.set [0; 0] (mkTensor2 1 [[f32_one]; [Example.two]]) false)
     (fun _ => Shared.pull [0; 0] (Some (Example.zeros 2 1)) false)
     (Example.shared 1 5 (Example.zeros 6 1))).1
  = Ret (mkPulled None (Some (mkTensor2 1 [[Example.two]; [Example.two]])))
  /\ (forall table : Tensor2,
        index_select table [0; 0]
        <> Ret (mkTensor2 1 [[f32_one]; [Example.two]])).
Proof.
split; [by vm_compute|].
intros table. unfold index_select. simpl.
destruct (wrap_index (nrows table) 0) as [i|]; simpl; [|done].
destruct (rows table !! i) as [r|]; simpl; [|done].
intros [= _ -> H]. by vm_compute in H.
Qed.

(** ** Two pushes and the push of the sum *)

(** C9, as amended: on the local-memory client, for keys inside the table
    that are all different and rows [a], [b] of shape [(len(keys), D)],
    [push(keys, a)] followed by [push(keys, b)] leaves the client as the one
    call [push(keys, a + b)] does, provided the float32 additions regroup on
    the values involved: [(x + a) + b = x + (a + b)] for every stored
    component [x] at a pushed key. *)
Theorem push_twice_is_push_of_sum {Group : Type}
  (self : Shared.SharedParameterClient Group)
  (keys : list Z) (a b : Tensor2) (a1 a2 a3 : bool) :
  in_bounds (nrows (Shared.parameters self)) keys ->
  NoDup keys ->
  has_shape a (length keys) (ncols (Shared.parameters self)) ->
  has_shape b (length keys) (ncols (Shared.parameters self)) ->
  regroups (Shared.parameters self) keys a b ->
  exists ab,
    torch_add a b = Ret ab /\
    bind (Shared.push keys a a1) (fun _ => Shared.push keys b a2) self
    = Shared.push keys ab a3 self.
Proof.
intros Hb Hnd (Han & Had & _) (Hbn & Hbd & _) Hre.
eexists. split.
{ by apply (torch_add_same_shape a b (length keys) (ncols (Shared.parameters self))). }
unfold bind. rewrite shared_push_rows by done.
rewrite shared_push_rows; simpl; [|by unfold nrows; simpl; rewrite length_scatter|done|done].
rewrite shared_push_rows; simpl; [|done| |done].
2:{ unfold nrows in *. simpl. rewrite length_zip_with. lia. }
unfold Shared.set_parameters. simpl. do 3 f_equal.
set (written := pushed_rows (rows (Shared.parameters self)) keys a).
assert (pushed_rows (scatter (rows (Shared.parameters self))
                       (zip (positions keys) written)) keys b
        = zip_with (zip_with f32_add) written (rows b)) as ->.
{ unfold pushed_rows at 1.
  rewrite (picked_rows_scatter _ _ _ (nrows (Shared.parameters self))); try done.
  by apply length_pushed_rows. }
subst written. rewrite scatter_twice.
2:{ rewrite length_zip_with, !length_pushed_rows by done. unfold nrows in Hbn. lia. }
by rewrite pushed_rows_regroup.
Qed.

Lemma push_twice_is_push_of_sum_witness :
  exists ab,
    torch_add (mkTensor2 1 [[f32_one]]) (mkTensor2 1 [[f32_one]]) = Ret ab /\
    bind (Shared.push [0] (mkTensor2 1 [[f32_one]]) false)
      (fun _ => Shared.push [0] (mkTensor2 1 [[f32_one]]) false)
      (Example.shared 1 5 (Example.zeros 6 1))
    = Shared.push [0] ab false (Example.shared 1 5 (Example.zeros 6 1)).
Proof.
apply push_twice_is_push_of_sum.
- repeat constructor; simpl; lia.
- distinct_keys.
- repeat split; repeat constructor.
- repeat split; repeat constructor.
- intros n k j x u v Hk Hx Hu Hv.
  destruct n as [|n]; [|done]. injection Hk as <-.
  destruct j as [|j]; [|done].
  vm_compute in Hx, Hu, Hv. injection Hx as <-. injection Hu as <-.
  injection Hv as <-. by vm_compute.
Defined.

(** C9 fails as stated: float32 addition rounds.  On a stored 16777216.0,
    adding 1.0 twice changes nothing, adding 2.0 once gives 16777218.0. *)
Lemma push_twice_differs_from_push_of_sum :
  torch_add (mkTensor2 1 [[f32_one]]) (mkTensor2 1 [[f32_one]])
  = Ret (mkTensor2 1 [[Example.two]])
  /\ Shared.parameters
       (bind (Shared.push [0] (mkTensor2 1 [[f32_one]]) false)
          (fun _ => Shared.push [0] (mkTensor2 1 [[f32_one]]) false)
          (Example.shared 1 5 (mkTensor2 1 [[Example.big]; [f32_zero]; [f32_zero];
                                            [f32_zero]; [f32_zero]; [f32_zero]]))).2
     = mkTensor2 1 [[f32_of_Z 16777216]; [f32_zero]; [f32_zero];
                    [f32_zero]; [f32_zero]; [f32_zero]]
  /\ Shared.parameters
       (Shared.push [0] (mkTensor2 1 [[Example.two]]) false
          (Example.shared 1 5 (mkTensor2 1 [[Example.big]; [f32_zero]; [f32_zero];
                                            [f32_zero]; [f32_zero]; [f32_zero]]))).2
     = mkTensor2 1 [[f32_of_Z 16777218]; [f32_zero]; [f32_zero];
                    [f32_zero]; [f32_zero]; [f32_zero]]
  /\ f32_of_Z 16777216 <> f32_of_Z 16777218.
Proof. repeat split; by vm_compute. Qed.

(** ** The stop flag *)

Lemma any_eq_true x row :
  any_eq x row = true <-> exists y, y ∈ row /\ f32_eqb y x = true.
Proof.
unfold any_eq. rewrite existsb_exists.
split; intros (y & Hy & Heq); exists y; split; try done; by apply list_elem_of_In.
Qed.

Lemma any_eq_replicate x y n :
  any_eq x (replicate n y) = (negb (n =? 0)%nat && f32_eqb y x).
Proof.
induction n as [|n IH]; simpl; [done|].
rewrite IH. destruct (f32_eqb y x); simpl; [done|]. by rewrite andb_false_r.
Qed.

Lemma ret_bool {S} (b : bool) (s : S) :
  (if b then ret true else ret false) s = (Ret b, s).
Proof. by destruct b. Qed.

Lemma in_bounds_singleton n k : 0 <= k < Z.of_nat n -> in_bounds n [k].
Proof. intros H. by apply Forall_singleton. Qed.

Section StopFlag.
Context {Group : Type}.
Implicit Types (self : Shared.SharedParameterClient Group).

Lemma shared_is_stopped_row self k :
  Shared._stop_key self = [k] ->
  0 <= k < Z.of_nat (nrows (Shared.parameters self)) ->
  nrows (Shared._stop_value_tensor self) = 1%nat ->
  ncols (Shared._stop_value_tensor self) = ncols (Shared.parameters self) ->
  Shared.is_stopped self =
  (Ret (any_eq f32_one (stored_row (Shared.parameters self) k)),
   Shared.set_stop_value_tensor
     (mkTensor2 (ncols (Shared.parameters self))
        [stored_row (Shared.parameters self) k])
     self).
Proof.
intros Hkey Hk Hn Hd. unfold Shared.is_stopped.
unfold bind at 1. unfold get at 1. unfold bind at 1.
rewrite Hkey, shared_pull_rows; [|by apply in_bounds_singleton|done|done].
simpl. unfold bind, get, put, lift, row_at. simpl.
apply ret_bool.
Qed.

Lemma shared_stop_adds_one self k :
  Shared._stop_key self = [k] ->
  0 <= k < Z.of_nat (nrows (Shared.parameters self)) ->
  Shared.dim self = Z.of_nat (ncols (Shared.parameters self)) ->
  wf_tensor (Shared.parameters self) ->
  Shared.stop self =
  (Ret tt,
   Shared.set_parameters
     (mkTensor2 (ncols (Shared.parameters self))
        (<[Z.to_nat k := (fun x => f32_add x f32_one)
                           <$> stored_row (Shared.parameters self) k]>
           (rows (Shared.parameters self))))
     self).
Proof.
intros Hkey Hk Hd Hwf. unfold Shared.stop.
unfold bind at 1. unfold get at 1. unfold bind at 1.
unfold lift, torch_ones, torch_full. rewrite Hd.
assert (((1 <? 0) || (Z.of_nat (ncols (Shared.parameters self)) <? 0)) = false) as ->.
{ apply orb_false_iff. split; apply Z.ltb_ge; lia. }
rewrite Hkey, shared_push_rows; [|by apply in_bounds_singleton|done|simpl; lia].
do 3 f_equal. unfold pushed_rows, picked_rows, scatter, stored_row. simpl.
rewrite Nat2Z.id. f_equal.
destruct (lookup_lt_is_Some_2 (rows (Shared.parameters self)) (Z.to_nat k))
  as [r Hr]; [unfold nrows in Hk; lia|].
rewrite Hr. simpl.
assert (length r = ncols (Shared.parameters self)) as <-.
{ eapply Forall_forall in Hwf; [exact Hwf|]. by eapply list_elem_of_lookup_2. }
clear. induction r as [|x r IH]; simpl; [done|]. by rewrite IH.
Qed.
End StopFlag.

Section SharedInit.
Context {Config Group : Type} {misc : Misc Config Group}.

(** What the constructor of the local-memory client leaves in the object. *)
Lemma shared_init_fields (config : Config) (rank : Z) (table : Tensor2)
  (self : Shared.SharedParameterClient Group) :
  Shared.__init__ config rank table = Ret self ->
  let n := Z.of_nat (nrows table) in
  let m := get_num_meta_keys config in
  let d := lookup_embedder_dim config
           + get_optimizer_dim config (lookup_embedder_dim config) in
  0 <= d /\ 0 <= m /\
  Shared.parameters self = table /\
  Shared.num_keys self = n /\
  Shared.dim self = d /\
  Shared.num_meta_keys self = m /\
  Shared._stop_key self = [n - m] /\
  Shared._optim_entity_step_key self = [n - m + 1] /\
  Shared._optim_relation_step_key self = [n - m + 2] /\
  Shared._entity_lr_key self = [n - m + 3] /\
  Shared._relation_lr_key self = [n - m + 4] /\
  Shared._stop_value_tensor self
  = mkTensor2 (Z.to_nat d) [replicate (Z.to_nat d) f32_zero].
Proof.
unfold Shared.__init__, torch_zeros, torch_full. simpl.
destruct (_ <? 0) eqn:Ed; simpl; [done|].
destruct (get_num_meta_keys config <? 0) eqn:Em; simpl; [done|].
apply Z.ltb_ge in Ed, Em.
intros [= <-]. by repeat split.
Qed.
End SharedInit.

Lemma lookup_replicate_row {A} (n i : nat) (x : A) :
  (i < n)%nat -> replicate n x !! i = Some x.
Proof. intros H. by apply lookup_replicate_2. Qed.

Lemma f32_add_zero_one : f32_add f32_zero f32_one = f32_one.
Proof. reflexivity. Qed.

Section FreshStore.
Context {Config Group : Type} {misc : Misc Config Group}.

(** A store as it is created: [n] rows of [d] zeros, and a client built on
    it whose configuration reserves [m] meta keys. *)
Lemma fresh_store_stop_flag (config : Config) (rank n d : Z) (table : Tensor2)
  (self : Shared.SharedParameterClient Group) :
  1 <= d ->
  1 <= get_num_meta_keys config <= n ->
  lookup_embedder_dim config
  + get_optimizer_dim config (lookup_embedder_dim config) = d ->
  torch_zeros n d = Ret table ->
  Shared.__init__ config rank table = Ret self ->
  (Shared.is_stopped self).1 = Ret false
  /\ (bind Shared.stop (fun _ => Shared.is_stopped) self).1 = Ret true.
Proof.
intros Hd Hm Hdim Htable Hinit.
apply shared_init_fields in Hinit. simpl in Hinit. rewrite Hdim in Hinit.
destruct Hinit as (_ & _ & Hp & _ & Hsd & _ & Hkey & _ & _ & _ & _ & Hbuf).
unfold torch_zeros, torch_full in Htable.
assert (((n <? 0) || (d <? 0)) = false) as E.
{ apply orb_false_iff. split; apply Z.ltb_ge; lia. }
rewrite E in Htable. injection Htable as <-.
assert (nrows (Shared.parameters self) = Z.to_nat n) as Hrows.
{ rewrite Hp. unfold nrows. simpl. by rewrite length_replicate. }
assert (Z.of_nat (nrows (Shared.parameters self)) = n) as Hn by lia.
unfold nrows in Hkey. simpl in Hkey.
rewrite length_replicate, Z2Nat.id in Hkey by lia.
set (k := n - get_num_meta_keys config) in *.
assert (0 <= k < n) as Hk by (subst k; lia).
assert (stored_row (Shared.parameters self) k = replicate (Z.to_nat d) f32_zero)
  as Hrow.
{ unfold stored_row. rewrite Hp. simpl.
  rewrite lookup_replicate_row by lia. done. }
split.
- rewrite (shared_is_stopped_row self k); simpl.
  + rewrite Hrow, any_eq_replicate. by rewrite andb_false_r.
  + done.
  + lia.
  + by rewrite Hbuf.
  + rewrite Hbuf, Hp. done.
- unfold bind. rewrite (shared_stop_adds_one self k).
  + rewrite (shared_is_stopped_row _ k); simpl.
    * unfold stored_row. simpl.
      rewrite list_lookup_insert_eq by (fold (nrows (Shared.parameters self)); lia).
      simpl. fold (stored_row (Shared.parameters self) k).
      rewrite Hrow, fmap_replicate, f32_add_zero_one, any_eq_replicate.
      assert ((Z.to_nat d =? 0)%nat = false) as -> by (apply Nat.eqb_neq; lia).
      done.
    * done.
    * unfold nrows. simpl. rewrite length_insert.
      fold (nrows (Shared.parameters self)). lia.
    * by rewrite Hbuf.
    * simpl. rewrite Hbuf, Hp. done.
  + done.
  + lia.
  + rewrite Hsd, Hp. simpl. lia.
  + rewrite Hp. unfold wf_tensor. simpl.
    apply Forall_replicate. by rewrite length_replicate.
Qed.
End FreshStore.

(** * What the command-protocol client puts on the wire *)

Lemma drop_length_app {A} (l k : list A) : drop (length l) (l ++ k) = k.
Proof. by rewrite drop_app_length. Qed.

Ltac run_client :=
  unfold bind, ret, raise, lift, Torch.this, Torch.send, Torch.assign; simpl.

Section TorchFacts.
Context {Group : Type} {cmds : TORCH_PARAMETER_SERVER_CMDS}.
Implicit Types (s : Torch.state Group).

Lemma torch_push_sends s keys t a :
  Torch.push keys t a s =
  (Ret tt, after_sending s [TLong [PUSH_CMD; Torch.len keys]; TLong keys; TFloat2 t]).
Proof.
unfold Torch.push, after_sending. run_client. by rewrite <- !app_assoc.
Qed.

Lemma torch_set_sends s keys t a :
  Torch.set keys t a s =
  (Ret tt, after_sending s [TLong [SET_CMD; Torch.len keys]; TLong keys; TFloat2 t]).
Proof.
unfold Torch.set, after_sending. run_client. by rewrite <- !app_assoc.
Qed.

Lemma torch_stop_sends s ones :
  torch_ones 1 (Torch.dim (Torch.self s)) = Ret ones ->
  Torch.stop s =
  (Ret tt,
   after_sending s
     [TLong [PUSH_CMD; Torch.len (Torch._stop_key (Torch.self s))];
      TLong (Torch._stop_key (Torch.self s)); TFloat2 ones]).
Proof.
intros Hones. unfold Torch.stop. run_client. rewrite Hones.
by rewrite torch_push_sends.
Qed.

Lemma torch_step_optim_sends s g :
  Torch.step_optim g s =
  (Ret tt, after_sending s [TLong [STEP_OPTIM_CMD; parameter_index g]]).
Proof. done. Qed.

(** A [pull] sends its header and the keys as they are, whatever the keys
    and whatever happens afterwards. *)
Lemma torch_pull_sends s keys pull_tensor a :
  sent (Torch.net (Torch.pull keys pull_tensor a s).2) =
  sent (Torch.net s) ++ to_server s [TLong [PULL_CMD; Torch.len keys]; TLong keys].
Proof.
unfold Torch.pull, Torch.recv. run_client. rewrite <- !app_assoc. simpl.
destruct pull_tensor as [buf|]; simpl.
- destruct (take_from _ _) as [[msg rest]|]; simpl; [|done].
  destruct msg as [l|l|m]; simpl; try done. by destruct (_ && _).
- destruct (torch_zeros _ _) as [buf| |]; simpl; try done.
  destruct (take_from _ _) as [[msg rest]|]; simpl; [|done].
  destruct msg as [l|l|m]; simpl; try done. by destruct (_ && _).
Qed.

(** The only exception a [pull] can end in is the one of a failed
    allocation or of a reply of the wrong shape. *)
Lemma torch_pull_raises s keys pull_tensor a e :
  (Torch.pull keys pull_tensor a s).1 = Raise e -> e = RuntimeError.
Proof.
unfold Torch.pull, Torch.recv, torch_zeros, torch_full. run_client.
destruct pull_tensor as [buf|]; simpl.
- destruct (take_from _ _) as [[msg rest]|]; simpl; [|done].
  destruct msg as [l|l|m]; simpl; try (by intros [= <-]).
  destruct (_ && _); simpl; [done|]. by intros [= <-].
- destruct (_ || _); simpl; [by intros [= <-]|].
  destruct (take_from _ _) as [[msg rest]|]; simpl; [|done].
  destruct msg as [l|l|m]; simpl; try (by intros [= <-]).
  destruct (_ && _); simpl; [done|]. by intros [= <-].
Qed.

(** A [pull] into a buffer, when the reply is there. *)
Lemma torch_pull_reply s keys buf a t rest :
  take_from (Torch.server_rank (Torch.self s)) (inbox (Torch.net s))
  = Some (TFloat2 t, rest) ->
  nrows t = nrows buf -> ncols t = ncols buf ->
  Torch.pull keys (Some buf) a s =
  (Ret (mkPulled None (Some t)),
   Torch.mkState (Torch.self s)
     (mkNet (sent (Torch.net s)
             ++ to_server s [TLong [PULL_CMD; Torch.len keys]; TLong keys])
        rest)).
Proof.
intros Hin Hn Hd. unfold Torch.pull, Torch.recv. run_client. rewrite Hin. simpl.
rewrite Hn, Hd, !Nat.eqb_refl. simpl. by rewrite <- !app_assoc.
Qed.
End TorchFacts.

(** ** Keys beyond the table *)

(** C1, as amended: on the local-memory client a [pull] whose key list holds
    a key [>= num_keys] fails with the index error of the tensor library and
    leaves the client, its table included, as it was.  The command-protocol
    client does not look at the keys: it sends the header and the key list
    as given and waits for the reply; it never fails with an index error
    itself. *)
Theorem pull_beyond_num_keys {Group : Type} {cmds : TORCH_PARAMETER_SERVER_CMDS}
  (self : Shared.SharedParameterClient Group) (s : Torch.state Group)
  (keys : list Z) (k : Z) (buf : Tensor2) (pull_tensor : option Tensor2)
  (a : bool) :
  k ∈ keys ->
  Shared.num_keys self <= k ->
  Shared.num_keys self = Z.of_nat (nrows (Shared.parameters self)) ->
  Shared.pull keys (Some buf) a self = (Raise IndexError, self)
  /\ sent_by (Torch.pull keys pull_tensor a) s
     = to_server s [TLong [PULL_CMD; Torch.len keys]; TLong keys]
  /\ (Torch.pull keys pull_tensor a s).1 <> Raise IndexError.
Proof.
intros Hin Hk Hn. split; [|split].
- unfold Shared.pull, bind, get, lift. simpl.
  rewrite (index_select_out_of_range _ keys k); [done|done|lia].
- unfold sent_by. by rewrite torch_pull_sends, drop_length_app.
- intros Hraise. by apply torch_pull_raises in Hraise.
Qed.

Lemma pull_beyond_num_keys_witness :
  Shared.pull [107] (Some (Example.zeros 1 2)) false
    (Example.shared 2 5 (Example.zeros 107 2))
  = (Raise IndexError, Example.shared 2 5 (Example.zeros 107 2))
  /\ sent_by (Torch.pull (cmds:=Example.cmds) [107] (Some (Example.zeros 1 2)) false)
       (Example.torch 2 5 107 [])
     = [(0, TLong [0; 1]); (0, TLong [107])]
  /\ (Torch.pull (cmds:=Example.cmds) [107] (Some (Example.zeros 1 2)) false
        (Example.torch 2 5 107 [])).1 <> Raise IndexError.
Proof.
apply (pull_beyond_num_keys (cmds:=Example.cmds)
         (Example.shared 2 5 (Example.zeros 107 2)) (Example.torch 2 5 107 [])
         [107] 107).
- by apply list_elem_of_singleton.
- by vm_compute.
- by vm_compute.
Defined.

(** C1 fails as stated: the command-protocol client with [num_keys = 107]
    asked for key 107 sends the request like any other; when the server
    answers, the call returns with the answer in the buffer, and while no
    answer comes it waits. *)
Lemma torch_pull_does_not_check_keys :
  Torch.num_keys (Example.torch_client 2 5 107) = 107
  /\ (Torch.pull (cmds:=Example.cmds) [107] (Some (Example.zeros 1 2)) false
        (Example.torch 2 5 107 [TFloat2 (mkTensor2 2 [[f32_one; f32_one]])])).1
     = Ret (mkPulled None (Some (mkTensor2 2 [[f32_one; f32_one]])))
  /\ (Torch.pull (cmds:=Example.cmds) [107] (Some (Example.zeros 1 2)) false
        (Example.torch 2 5 107 [])).1
     = Blocked.
Proof. repeat split; by vm_compute. Qed.

(** ** The optimizer step counters of the command-protocol client *)

Section StepOptim.
Context {Group : Type} {cmds : TORCH_PARAMETER_SERVER_CMDS}.
Implicit Types (s : Torch.state Group).

Lemma torch_get_step_optim_sends s g :
  sent (Torch.net (Torch.get_step_optim g s).2) =
  sent (Torch.net s) ++ to_server s [TLong [GET_OPTIM_STEP_CMD; parameter_index g]].
Proof.
unfold Torch.get_step_optim, Torch.recv, parameter_index. run_client.
destruct (take_from _ _) as [[msg rest]|]; simpl; [|done].
destruct msg as [l|l|m]; simpl; try done.
destruct (length l) as [|[|[|n]]] eqn:El; simpl; try done.
by destruct l as [|x [|y l]].
Qed.

(** Only the comparison with ["entity"] enters either call. *)
Lemma torch_step_optim_other s g :
  Torch.step_optim g s
  = Torch.step_optim (if String.eqb g "entity" then "entity" else "relation") s.
Proof. unfold Torch.step_optim. by destruct (String.eqb g "entity"). Qed.

Lemma torch_get_step_optim_other s g :
  Torch.get_step_optim g s
  = Torch.get_step_optim (if String.eqb g "entity" then "entity" else "relation") s.
Proof. unfold Torch.get_step_optim. by destruct (String.eqb g "entity"). Qed.
End StepOptim.

(** C10: in the command-protocol client [step_optim(group_name)] and
    [get_step_optim(group_name)] send the parameter index 0 when
    [group_name] is ["entity"] and 1 for every other string; the name is not
    validated: [step_optim] returns normally for every name, and both calls
    treat a name other than ["entity"] exactly as they treat ["relation"]. *)
Theorem step_optim_parameter_index {Group : Type}
  {cmds : TORCH_PARAMETER_SERVER_CMDS} (s : Torch.state Group)
  (group_name : string) :
  Torch.step_optim group_name s
  = (Ret tt,
     after_sending s
       [TLong [STEP_OPTIM_CMD; if String.eqb group_name "entity" then 0 else 1]])
  /\ sent_by (Torch.get_step_optim group_name) s
     = to_server s
         [TLong [GET_OPTIM_STEP_CMD;
                 if String.eqb group_name "entity" then 0 else 1]]
  /\ Torch.step_optim group_name s
     = Torch.step_optim
         (if String.eqb group_name "entity" then "entity" else "relation") s
  /\ Torch.get_step_optim group_name s
     = Torch.get_step_optim
         (if String.eqb group_name "entity" then "entity" else "relation") s.
Proof.
repeat split.
- unfold sent_by. by rewrite torch_get_step_optim_sends, drop_length_app.
- apply torch_step_optim_other.
- apply torch_get_step_optim_other.
Qed.

(** ** The header of a request *)

Section Headers.
Context {Group : Type} {cmds : TORCH_PARAMETER_SERVER_CMDS}.
Implicit Types (s : Torch.state Group).




End Headers.



(** ** [localize] *)

(** C3: [localize] on the embedded-server client raises the error of an
    unsupported operation at once, without a call of the engine; on the
    command-protocol and the local-memory client it returns normally,
    sends nothing and leaves the client and every stored row as they
    were. *)
Theorem localize_by_backend {Group Worker : Type}
  (lapse : Lapse.LapseParameterClient Group Worker)
  (s : Torch.state Group) (self : Shared.SharedParameterClient Group)
  (keys : list Z) (asynchronous : bool) :
  Lapse.localize keys asynchronous lapse = (Raise NotImplementedError, lapse)
  /\ Torch.localize keys asynchronous s = (Ret tt, s)
  /\ sent_by (Torch.localize keys asynchronous) s = []
  /\ Shared.localize keys asynchronous self = (Ret tt, self)
  /\ Shared.parameters (Shared.localize keys asynchronous self).2
     = Shared.parameters self.
Proof.
repeat split. unfold sent_by, Torch.localize, ret. simpl. apply drop_all.
Qed.

(** ** What [pull] hands back *)

(** C5, as amended: [pull(keys, out_buffer)] with a buffer of shape
    [(len(keys), D)] writes the rows into the buffer and returns nothing.
    On the local-memory client the buffer then holds the stored rows of
    [keys], in the order of [keys]; on the command-protocol client it holds
    the reply of the server.  The local-memory client has no default for
    the buffer. *)
Theorem pull_fills_the_buffer {Group : Type} {cmds : TORCH_PARAMETER_SERVER_CMDS}
  (self : Shared.SharedParameterClient Group) (s : Torch.state Group)
  (keys : list Z) (buf reply : Tensor2) (rest : list (Z * tensor))
  (a : bool) :
  in_bounds (nrows (Shared.parameters self)) keys ->
  has_shape buf (length keys) (ncols (Shared.parameters self)) ->
  take_from (Torch.server_rank (Torch.self s)) (inbox (Torch.net s))
  = Some (TFloat2 reply, rest) ->
  nrows reply = nrows buf -> ncols reply = ncols buf ->
  (exists out,
      Shared.pull keys (Some buf) a self = (Ret (mkPulled None (Some out)), self)
      /\ nrows out = length keys
      /\ ncols out = ncols (Shared.parameters self)
      /\ forall i k, keys !! i = Some k ->
                     rows out !! i = rows (Shared.parameters self) !! Z.to_nat k)
  /\ (Torch.pull keys (Some buf) a s).1 = Ret (mkPulled None (Some reply))
  /\ Shared.pull keys None a self = (Raise TypeError, self).
Proof.
intros Hb (Hn & Hd & _) Hin Hrn Hrd. split; [|split].
- eexists. split; [by apply shared_pull_rows|]. simpl.
  split; [by unfold nrows; simpl; rewrite length_picked_rows|].
  split; [done|].
  intros i k Hk. unfold picked_rows. rewrite list_lookup_fmap, Hk. simpl.
  eapply Forall_forall in Hb; [|by eapply list_elem_of_lookup_2].
  destruct (lookup_lt_is_Some_2 (rows (Shared.parameters self)) (Z.to_nat k))
    as [r Hr]; [unfold nrows in Hb; lia|].
  by rewrite Hr.
- by rewrite (torch_pull_reply s keys buf a reply rest).
- done.
Qed.

Lemma pull_fills_the_buffer_witness :
  (exists out,
      Shared.pull [5; 0] (Some (Example.zeros 2 2)) false
        (Example.shared 2 5 (Example.zeros 6 2))
      = (Ret (mkPulled None (Some out)), Example.shared 2 5 (Example.zeros 6 2))
      /\ nrows out = 2%nat
      /\ ncols out = 2%nat
      /\ forall i k, [5; 0] !! i = Some k ->
                     rows out !! i = rows (Example.zeros 6 2) !! Z.to_nat k)
  /\ (Torch.pull (cmds:=Example.cmds) [5; 0] (Some (Example.zeros 2 2)) false
        (Example.torch 2 5 6
           [TFloat2 (mkTensor2 2 [[f32_one; f32_one]; [f32_zero; f32_zero]])])).1
     = Ret (mkPulled None
              (Some (mkTensor2 2 [[f32_one; f32_one]; [f32_zero; f32_zero]])))
  /\ Shared.pull [5; 0] None false (Example.shared 2 5 (Example.zeros 6 2))
     = (Raise TypeError, Example.shared 2 5 (Example.zeros 6 2)).
Proof.
apply (pull_fills_the_buffer (cmds:=Example.cmds)
         (Example.shared 2 5 (Example.zeros 6 2))
         (Example.torch 2 5 6
            [TFloat2 (mkTensor2 2 [[f32_one; f32_one]; [f32_zero; f32_zero]])])
         [5; 0] (Example.zeros 2 2) _ []).
- repeat constructor; simpl; lia.
- repeat split; repeat constructor.
- reflexivity.
- reflexivity.
- reflexivity.
Defined.

(** C5 fails as stated: without a buffer the local-memory client cannot be
    called at all, and the command-protocol client receives the reply into a
    buffer of its own and returns nothing. *)
Lemma pull_without_buffer_returns_no_rows :
  Shared.pull [5; 0] None false (Example.shared 2 5 (Example.zeros 6 2))
  = (Raise TypeError, Example.shared 2 5 (Example.zeros 6 2))
  /\ (Torch.pull (cmds:=Example.cmds) [5; 0] None false
        (Example.torch 2 5 6
           [TFloat2 (mkTensor2 2 [[f32_one; f32_one]; [f32_zero; f32_zero]])])).1
     = Ret (mkPulled None None).
Proof. split; by vm_compute. Qed.

(** ** The test of [is_stopped] *)

Section IsStopped.
Context {Group : Type} {cmds : TORCH_PARAMETER_SERVER_CMDS}.
Context {Server Worker Handle : Type} {engine : LapseWorker Server Worker Handle}.

Lemma torch_is_stopped_reply (s : Torch.state Group) reply row rest :
  take_from (Torch.server_rank (Torch.self s)) (inbox (Torch.net s))
  = Some (TFloat2 reply, rest) ->
  nrows reply = nrows (Torch._stop_value_tensor (Torch.self s)) ->
  ncols reply = ncols (Torch._stop_value_tensor (Torch.self s)) ->
  rows reply !! 0%nat = Some row ->
  (Torch.is_stopped s).1 = Ret (any_eq f32_one row).
Proof.
intros Hin Hn Hd Hrow. unfold Torch.is_stopped.
unfold bind at 1. unfold Torch.this at 1. unfold bind at 1.
rewrite (torch_pull_reply s _ _ false reply rest) by done.
run_client. unfold row_at. simpl. rewrite Hrow. simpl.
by destruct (any_eq f32_one row).
Qed.

Lemma lapse_is_stopped_pulled (self : Lapse.LapseParameterClient Group Worker)
  (h : Handle) (pulled_tensor : Tensor2) (w : Worker) (x : f32) :
  worker_pull (Lapse._stop_key self) (Lapse._stop_value_tensor self) false
    (Lapse.worker self)
  = (Ret (h, pulled_tensor), w) ->
  item_at pulled_tensor 0 0 = Ret x ->
  (Lapse.is_stopped self).1 = Ret (f32_eqb x f32_one).
Proof.
intros Hpull Hitem. unfold Lapse.is_stopped, Lapse.super, bind, get, put, lift.
simpl. rewrite Hpull. simpl. rewrite Hitem. simpl.
by destruct (f32_eqb x f32_one).
Qed.
End IsStopped.

(** C6, as amended: [is_stopped()] of the local-memory client is true iff
    some component of the stored row at the stop key equals 1, and
    [is_stopped()] of the command-protocol client is true iff some component
    of the row the server replies with equals 1 (both test
    [torch.any(row == 1)]); [is_stopped()] of the embedded-server client is
    true iff the first component of the row the engine pulled equals 1. *)
Theorem is_stopped_test {Group : Type} {cmds : TORCH_PARAMETER_SERVER_CMDS}
  {Server Worker Handle : Type} {engine : LapseWorker Server Worker Handle}
  (self : Shared.SharedParameterClient Group) (k : Z)
  (s : Torch.state Group) (reply : Tensor2) (row : list f32)
  (rest : list (Z * tensor))
  (lapse : Lapse.LapseParameterClient Group Worker)
  (h : Handle) (pulled_tensor : Tensor2) (w : Worker) (pulled_row : list f32)
  (x : f32) :
  Shared._stop_key self = [k] ->
  0 <= k < Z.of_nat (nrows (Shared.parameters self)) ->
  has_shape (Shared._stop_value_tensor self) 1 (ncols (Shared.parameters self)) ->
  take_from (Torch.server_rank (Torch.self s)) (inbox (Torch.net s))
  = Some (TFloat2 reply, rest) ->
  nrows reply = nrows (Torch._stop_value_tensor (Torch.self s)) ->
  ncols reply = ncols (Torch._stop_value_tensor (Torch.self s)) ->
  rows reply !! 0%nat = Some row ->
  worker_pull (Lapse._stop_key lapse) (Lapse._stop_value_tensor lapse) false
    (Lapse.worker lapse)
  = (Ret (h, pulled_tensor), w) ->
  rows pulled_tensor !! 0%nat = Some pulled_row ->
  pulled_row !! 0%nat = Some x ->
  (exists b, (Shared.is_stopped self).1 = Ret b
             /\ (b = true <->
                 some_component_is_one (stored_row (Shared.parameters self) k)))
  /\ (exists b, (Torch.is_stopped s).1 = Ret b
                /\ (b = true <-> some_component_is_one row))
  /\ (exists b, (Lapse.is_stopped lapse).1 = Ret b
                /\ (b = true <-> first_component_is_one pulled_row)).
Proof.
intros Hkey Hk (Hbn & Hbd & _) Hin Hrn Hrd Hrow Hpull Hprow Hx.
split; [|split].
- eexists. split; [by rewrite (shared_is_stopped_row self k)|]. simpl.
  apply any_eq_true.
- eexists. split; [by eapply torch_is_stopped_reply|]. apply any_eq_true.
- eexists. split.
  + eapply lapse_is_stopped_pulled; [exact Hpull|].
    unfold item_at. by rewrite Hprow, Hx.
  + unfold first_component_is_one. split.
    * intros Hb. by exists x.
    * intros (y & Hy & Hb). congruence.
Qed.

Lemma is_stopped_test_witness :
  (exists b, (Shared.is_stopped (Example.shared 2 5 (Example.zeros 6 2))).1 = Ret b
             /\ (b = true <->
                 some_component_is_one (stored_row (Example.zeros 6 2) 1)))
  /\ (exists b, (Torch.is_stopped (cmds:=Example.cmds)
                   (Example.torch 2 5 6
                      [TFloat2 (mkTensor2 2 [[f32_one; f32_one]])])).1 = Ret b
                /\ (b = true <-> some_component_is_one [f32_one; f32_one]))
  /\ (exists b, (Lapse.is_stopped (engine:=Example.engine)
                   (Example.lapse 5 (Example.zeros 6 2))).1 = Ret b
                /\ (b = true <-> first_component_is_one [f32_zero; f32_zero])).
Proof.
apply (is_stopped_test (cmds:=Example.cmds) (engine:=Example.engine)
         (Example.shared 2 5 (Example.zeros 6 2)) 1
         (Example.torch 2 5 6 [TFloat2 (mkTensor2 2 [[f32_one; f32_one]])])
         (mkTensor2 2 [[f32_one; f32_one]]) [f32_one; f32_one] []
         (Example.lapse 5 (Example.zeros 6 2))
         tt (mkTensor2 2 [[f32_zero; f32_zero]]) (Example.zeros 6 2)
         [f32_zero; f32_zero] f32_zero).
- reflexivity.
- by vm_compute.
- repeat split; repeat constructor.
- reflexivity.
- reflexivity.
- reflexivity.
- reflexivity.
- reflexivity.
- reflexivity.
- reflexivity.
Defined.

(** C6 fails as stated: with the row (0, 1) stored at the stop key the
    first component is not 1, and [is_stopped()] of the local-memory client
    is true all the same. *)
Lemma is_stopped_looks_at_every_component :
  Shared._stop_key
    (Example.shared 2 5
       (mkTensor2 2 [[f32_zero; f32_zero]; [f32_zero; f32_one];
                     [f32_zero; f32_zero]; [f32_zero; f32_zero];
                     [f32_zero; f32_zero]; [f32_zero; f32_zero]]))
  = [1]
  /\ item_at
       (mkTensor2 2 [[f32_zero; f32_zero]; [f32_zero; f32_one];
                     [f32_zero; f32_zero]; [f32_zero; f32_zero];
                     [f32_zero; f32_zero]; [f32_zero; f32_zero]]) 1 0
     = Ret f32_zero
  /\ f32_eqb f32_zero f32_one = false
  /\ (Shared.is_stopped
        (Example.shared 2 5
           (mkTensor2 2 [[f32_zero; f32_zero]; [f32_zero; f32_one];
                         [f32_zero; f32_zero]; [f32_zero; f32_zero];
                         [f32_zero; f32_zero]; [f32_zero; f32_zero]]))).1
     = Ret true.
Proof. repeat split; by vm_compute. Qed.

(** ** [stop] *)

(** C2, as amended: [stop()] pushes a row of ones onto the stop meta key, so
    the stored row grows by 1 in every component; it is not overwritten.
    On a freshly constructed store (all zeros, at least one column, the
    meta keys inside the table) [is_stopped()] of the local-memory client
    returns false, and after one [stop()] it returns true.  On any
    local-memory client ([other]) whose stop key lies inside its table,
    [stop()] replaces the stop row by the row plus 1.  The command-protocol
    client sends the same push of ones to its server. *)
Theorem stop_adds_one_to_the_stop_row {Config Group : Type}
  {misc : Misc Config Group} {cmds : TORCH_PARAMETER_SERVER_CMDS}
  (config : Config) (rank n d : Z) (table : Tensor2)
  (self other : Shared.SharedParameterClient Group) (k : Z)
  (s : Torch.state Group) (ones : Tensor2) :
  1 <= d ->
  1 <= get_num_meta_keys config <= n ->
  lookup_embedder_dim config
  + get_optimizer_dim config (lookup_embedder_dim config) = d ->
  torch_zeros n d = Ret table ->
  Shared.__init__ config rank table = Ret self ->
  Shared._stop_key other = [k] ->
  0 <= k < Z.of_nat (nrows (Shared.parameters other)) ->
  Shared.dim other = Z.of_nat (ncols (Shared.parameters other)) ->
  wf_tensor (Shared.parameters other) ->
  torch_ones 1 (Torch.dim (Torch.self s)) = Ret ones ->
  (Shared.is_stopped self).1 = Ret false
  /\ (bind Shared.stop (fun _ => Shared.is_stopped) self).1 = Ret true
  /\ Shared.stop other =
     (Ret tt,
      Shared.set_parameters
        (mkTensor2 (ncols (Shared.parameters other))
           (<[Z.to_nat k := (fun x => f32_add x f32_one)
                              <$> stored_row (Shared.parameters other) k]>
              (rows (Shared.parameters other))))
        other)
  /\ Torch.stop s =
     (Ret tt,
      after_sending s
        [TLong [PUSH_CMD; Torch.len (Torch._stop_key (Torch.self s))];
         TLong (Torch._stop_key (Torch.self s)); TFloat2 ones]).
Proof.
intros Hd Hm Hdim Htable Hinit Hkey Hk Hod Hwf Hones.
destruct (fresh_store_stop_flag config rank n d table self) as [Hfresh Hstopped];
  try done.
repeat split; try done.
- by apply shared_stop_adds_one.
- by apply torch_stop_sends.
Qed.

Lemma stop_adds_one_to_the_stop_row_witness :
  (Shared.is_stopped (Example.shared 2 5 (Example.zeros 6 2))).1 = Ret false
  /\ (bind Shared.stop (fun _ => Shared.is_stopped)
        (Example.shared 2 5 (Example.zeros 6 2))).1 = Ret true
  /\ Shared.stop (Shared.stop (Example.shared 2 5 (Example.zeros 6 2))).2 =
     (Ret tt,
      Shared.set_parameters
        (mkTensor2 2
           (<[1%nat := (fun x => f32_add x f32_one) <$> [f32_one; f32_one]]>
              [[f32_zero; f32_zero]; [f32_one; f32_one]; [f32_zero; f32_zero];
               [f32_zero; f32_zero]; [f32_zero; f32_zero]; [f32_zero; f32_zero]]))
        (Shared.stop (Example.shared 2 5 (Example.zeros 6 2))).2)
  /\ Torch.stop (cmds:=Example.cmds) (Example.torch 2 5 6 []) =
     (Ret tt,
      after_sending (Example.torch 2 5 6 [])
        [TLong [1; 1]; TLong [1]; TFloat2 (mkTensor2 2 [[f32_one; f32_one]])]).
Proof.
apply (stop_adds_one_to_the_stop_row (misc:=Example.misc) (cmds:=Example.cmds)
         (Example.config 2 5) 0 6 2 (Example.zeros 6 2)
         (Example.shared 2 5 (Example.zeros 6 2))
         (Shared.stop (Example.shared 2 5 (Example.zeros 6 2))).2 1
         (Example.torch 2 5 6 []) (mkTensor2 2 [[f32_one; f32_one]])).
- lia.
- simpl. lia.
- reflexivity.
- reflexivity.
- reflexivity.
- reflexivity.
- by vm_compute.
- reflexivity.
- repeat constructor.
- reflexivity.
Defined.

(** C2 fails as stated: a second [stop()] adds one more, the stop row then
    holds 2 and [is_stopped()] returns false. *)
Lemma stop_twice_is_not_stopped :
  (bind Shared.stop (fun _ => bind Shared.stop (fun _ => Shared.is_stopped))
     (Example.shared 2 5 (Example.zeros 6 2))).1
  = Ret false
  /\ stored_row
       (Shared.parameters
          (bind Shared.stop (fun _ => Shared.stop)
             (Example.shared 2 5 (Example.zeros 6 2))).2) 1
     = [Example.two; Example.two].
Proof. split; by vm_compute. Qed.

(** ** The concrete layout *)



(** * Further properties of the local-memory client *)

(** ** Writes: what stays as it was *)

Lemma last_write_not_written j idx vs :
  j ∉ idx -> last_write j (zip idx vs) = None.
Proof.
revert vs. induction idx as [|i idx IH]; intros vs Hj; [done|].
destruct vs as [|v vs]; [done|]. simpl.
apply not_elem_of_cons in Hj as [Hne Hj].
rewrite IH by done. by rewrite decide_False.
Qed.

Lemma mapM_wrap_index_elem n keys idx j :
  mapM (wrap_index n) keys = Some idx -> j ∈ idx ->
  exists k, k ∈ keys /\ wrap_index n k = Some j.
Proof.
intros Hm Hj. apply mapM_Some in Hm.
induction Hm as [|k i keys idx Hk _ IH]; [by apply elem_of_nil in Hj|].
apply elem_of_cons in Hj as [->|Hj].
- exists k. split; [by left|done].
- destruct (IH Hj) as (k' & Hin & Hw). exists k'. split; [by right|done].
Qed.

Lemma index_put_frame t keys v t' :
  index_put t keys v = Ret t' ->
  nrows t' = nrows t /\ ncols t' = ncols t
  /\ forall j, (forall k, k ∈ keys -> wrap_index (nrows t) k <> Some j) ->
               rows t' !! j = rows t !! j.
Proof.
unfold index_put.
destruct (expand _ _ v) as [v'|]; [|done].
destruct (mapM _ keys) as [idx|] eqn:Hidx; [|done].
intros [= <-]. unfold nrows. simpl. rewrite length_scatter.
repeat split. intros j Hj.
rewrite scatter_lookup, last_write_not_written; [done|].
intros Hin. destruct (mapM_wrap_index_elem _ _ _ _ Hidx Hin) as (k & Hk & Hw).
by apply (Hj k).
Qed.

(** X1: a [set] or [push] that returns changes nothing of the client but the
    table; the table keeps its shape, and every row that none of the keys
    addresses (directly or, for a negative key, from the end) is as it
    was. *)
Theorem write_keeps_the_other_rows {Group : Type}
  (self self' : Shared.SharedParameterClient Group)
  (keys : list Z) (v : Tensor2) (a : bool) :
  Shared.set keys v a self = (Ret tt, self')
  \/ Shared.push keys v a self = (Ret tt, self') ->
  self' = Shared.set_parameters (Shared.parameters self') self
  /\ nrows (Shared.parameters self') = nrows (Shared.parameters self)
  /\ ncols (Shared.parameters self') = ncols (Shared.parameters self)
  /\ forall j,
       (forall k, k ∈ keys ->
                  wrap_index (nrows (Shared.parameters self)) k <> Some j) ->
       rows (Shared.parameters self') !! j = rows (Shared.parameters self) !! j.
Proof.
intros [Hset|Hpush].
- unfold Shared.set, bind, get, lift, put in Hset. simpl in Hset.
  destruct (index_put _ keys v) as [t'| |] eqn:Hput; try done.
  injection Hset as <-. simpl. split; [done|]. by apply index_put_frame in Hput.
- unfold Shared.push, bind, get, lift, put in Hpush. simpl in Hpush.
  destruct (index_select _ keys) as [picked| |]; try done.
  destruct (iadd picked v) as [summed| |]; try done.
  destruct (index_put _ keys summed) as [t'| |] eqn:Hput; try done.
  injection Hpush as <-. simpl. split; [done|]. by apply index_put_frame in Hput.
Qed.

Lemma write_keeps_the_other_rows_witness :
  (Shared.push [1; -1] (mkTensor2 2 [[f32_one; f32_one]; [f32_one; f32_one]]) false
     (Example.shared 2 5 (Example.zeros 6 2))).2
  = Shared.set_parameters
      (Shared.parameters
         (Shared.push [1; -1]
            (mkTensor2 2 [[f32_one; f32_one]; [f32_one; f32_one]]) false
            (Example.shared 2 5 (Example.zeros 6 2))).2)
      (Example.shared 2 5 (Example.zeros 6 2))
  /\ nrows (Shared.parameters
              (Shared.push [1; -1]
                 (mkTensor2 2 [[f32_one; f32_one]; [f32_one; f32_one]]) false
                 (Example.shared 2 5 (Example.zeros 6 2))).2)
     = nrows (Shared.parameters (Example.shared 2 5 (Example.zeros 6 2)))
  /\ ncols (Shared.parameters
              (Shared.push [1; -1]
                 (mkTensor2 2 [[f32_one; f32_one]; [f32_one; f32_one]]) false
                 (Example.shared 2 5 (Example.zeros 6 2))).2)
     = ncols (Shared.parameters (Example.shared 2 5 (Example.zeros 6 2)))
  /\ forall j,
       (forall k, k ∈ [1; -1] ->
                  wrap_index
                    (nrows (Shared.parameters
                              (Example.shared 2 5 (Example.zeros 6 2)))) k
                  <> Some j) ->
       rows (Shared.parameters
               (Shared.push [1; -1]
                  (mkTensor2 2 [[f32_one; f32_one]; [f32_one; f32_one]]) false
                  (Example.shared 2 5 (Example.zeros 6 2))).2) !! j
       = rows (Shared.parameters (Example.shared 2 5 (Example.zeros 6 2))) !! j.
Proof.
apply (write_keeps_the_other_rows
         (Example.shared 2 5 (Example.zeros 6 2))
         (Shared.push [1; -1]
            (mkTensor2 2 [[f32_one; f32_one]; [f32_one; f32_one]]) false
            (Example.shared 2 5 (Example.zeros 6 2))).2
         [1; -1] (mkTensor2 2 [[f32_one; f32_one]; [f32_one; f32_one]]) false).
right. reflexivity.
Defined.

(** ** [push] read back *)

(** X2: for keys inside the table that are all different and rows of shape
    [(len(keys), D)], a [pull] after [push(keys, v)] finds what a [pull]
    before it found with [v] added to it element by element. *)
Theorem push_then_pull_adds {Group : Type}
  (self : Shared.SharedParameterClient Group)
  (keys : list Z) (v buf : Tensor2) (a1 a2 : bool) :
  in_bounds (nrows (Shared.parameters self)) keys ->
  NoDup keys ->
  has_shape v (length keys) (ncols (Shared.parameters self)) ->
  has_shape buf (length keys) (ncols (Shared.parameters self)) ->
  exists before after,
    (Shared.pull keys (Some buf) a2 self).1
    = Ret (mkPulled None (Some before))
    /\ iadd before v = Ret after
    /\ (bind (Shared.push keys v a1)
          (fun _ => Shared.pull keys (Some buf) a2) self).1
       = Ret (mkPulled None (Some after)).
Proof.
intros Hb Hnd (Hvn & Hvd & _) (Hbn & Hbd & _).
eexists. eexists. split; [by rewrite shared_pull_rows|]. split.
- unfold iadd. simpl.
  rewrite expand_exact; [reflexivity| |done].
  unfold nrows. simpl. by rewrite length_picked_rows.
- unfold bind. rewrite shared_push_rows by done.
  rewrite shared_pull_rows; simpl.
  + rewrite (picked_rows_scatter _ _ _ (nrows (Shared.parameters self)));
      try done.
    by apply length_pushed_rows.
  + unfold nrows. simpl. rewrite length_scatter. exact Hb.
  + done.
  + done.
Qed.

Lemma push_then_pull_adds_witness :
  exists before after,
    (Shared.pull [2; 0] (Some (Example.zeros 2 2)) false
       (Example.shared 2 5 (mkTensor2 2 [[f32_one; f32_zero]; [f32_zero; f32_zero];
                                         [f32_one; f32_one]]))).1
    = Ret (mkPulled None (Some before))
    /\ iadd before (mkTensor2 2 [[f32_one; f32_one]; [f32_one; f32_zero]])
       = Ret after
    /\ (bind (Shared.push [2; 0]
                (mkTensor2 2 [[f32_one; f32_one]; [f32_one; f32_zero]]) false)
          (fun _ => Shared.pull [2; 0] (Some (Example.zeros 2 2)) false)
          (Example.shared 2 5 (mkTensor2 2 [[f32_one; f32_zero]; [f32_zero; f32_zero];
                                            [f32_one; f32_one]]))).1
       = Ret (mkPulled None (Some after)).
Proof.
apply push_then_pull_adds.
- repeat constructor; simpl; lia.
- distinct_keys.
- repeat split; repeat constructor.
- repeat split; repeat constructor.
Defined.



(** ** Negative keys *)

Lemma wrap_index_from_the_end n k :
  - Z.of_nat n <= k -> wrap_index n (from_the_end n k) = wrap_index n k.
Proof.
intros Hk. unfold from_the_end.
destruct (k <? 0) eqn:E; [|done]. apply Z.ltb_lt in E.
rewrite wrap_index_inside by lia. unfold wrap_index.
assert ((0 <=? k) = false) as -> by (apply Z.leb_gt; lia).
assert ((- Z.of_nat n <=? k) = true) as -> by (apply Z.leb_le; lia).
assert ((k <? 0) = true) as -> by (apply Z.ltb_lt; lia).
done.
Qed.

Lemma wrap_index_below n k : k < - Z.of_nat n -> wrap_index n k = None.
Proof.
intros Hk. unfold wrap_index.
assert ((0 <=? k) = false) as -> by (apply Z.leb_gt; lia).
assert ((- Z.of_nat n <=? k) = false) as -> by (apply Z.leb_gt; lia).
done.
Qed.

Lemma mapM_from_the_end {A} n (f : nat -> option A) keys :
  Forall (fun k => - Z.of_nat n <= k) keys ->
  mapM (fun k => i ← wrap_index n k; f i) (map (from_the_end n) keys)
  = mapM (fun k => i ← wrap_index n k; f i) keys.
Proof.
induction 1 as [|k keys Hk _ IH]; [done|].
simpl. rewrite wrap_index_from_the_end by done.
simpl in IH. by rewrite IH.
Qed.

Lemma index_select_from_the_end t keys :
  Forall (fun k => - Z.of_nat (nrows t) <= k) keys ->
  index_select t (map (from_the_end (nrows t)) keys) = index_select t keys.
Proof. intros H. unfold index_select. by rewrite mapM_from_the_end. Qed.

Lemma index_put_from_the_end t keys v :
  Forall (fun k => - Z.of_nat (nrows t) <= k) keys ->
  index_put t (map (from_the_end (nrows t)) keys) v = index_put t keys v.
Proof.
intros H. unfold index_put. rewrite length_map.
destruct (expand _ _ v) as [v'|]; [|done].
pose proof (mapM_from_the_end (nrows t) Some keys H) as Hm.
assert (forall l, mapM (fun k => i ← wrap_index (nrows t) k; Some i) l
                  = mapM (wrap_index (nrows t)) l) as Heq.
{ intros l. apply mapM_ext. intros k. by destruct (wrap_index _ k). }
rewrite !Heq in Hm. by rewrite Hm.
Qed.

Lemma index_select_bad_key t keys k :
  k ∈ keys -> wrap_index (nrows t) k = None ->
  index_select t keys = Raise IndexError.
Proof.
intros Hin Hk. unfold index_select.
destruct (mapM _ keys) as [rs|] eqn:E; [|done].
exfalso. apply mk_is_Some, mapM_is_Some in E.
eapply Forall_forall in E; [|exact Hin]. simpl in E.
rewrite Hk in E. by destruct E.
Qed.

(** X4: a negative key is not refused as long as it is not below
    [-num_keys]: key [-j] stands for row [num_keys - j], in [pull], [set] and
    [push] alike.  A key below [-num_keys] makes [pull] fail with the index
    error, the client unchanged. *)
Theorem negative_keys_count_from_the_end {Group : Type}
  (self : Shared.SharedParameterClient Group)
  (keys low : list Z) (k : Z) (v buf : Tensor2)
  (pull_tensor : option Tensor2) (a : bool) :
  Forall (fun k => - Z.of_nat (nrows (Shared.parameters self)) <= k) keys ->
  k ∈ low ->
  k < - Z.of_nat (nrows (Shared.parameters self)) ->
  Shared.pull (map (from_the_end (nrows (Shared.parameters self))) keys)
    pull_tensor a self
  = Shared.pull keys pull_tensor a self
  /\ Shared.set (map (from_the_end (nrows (Shared.parameters self))) keys) v a self
     = Shared.set keys v a self
  /\ Shared.push (map (from_the_end (nrows (Shared.parameters self))) keys) v a self
     = Shared.push keys v a self
  /\ Shared.pull low (Some buf) a self = (Raise IndexError, self).
Proof.
intros Hkeys Hin Hk. repeat split.
- unfold Shared.pull. destruct pull_tensor as [b|]; [|done].
  unfold bind, get, lift. simpl. by rewrite index_select_from_the_end.
- unfold Shared.set, bind, get, lift. simpl.
  by rewrite index_put_from_the_end.
- unfold Shared.push, bind, get, lift. simpl.
  rewrite index_select_from_the_end by done.
  destruct (index_select _ keys) as [picked| |]; try done.
  destruct (iadd picked v) as [summed| |]; try done.
  by rewrite index_put_from_the_end.
- unfold Shared.pull, bind, get, lift. simpl.
  rewrite (index_select_bad_key _ low k); [done|done|].
  by apply wrap_index_below.
Qed.

Lemma negative_keys_count_from_the_end_witness :
  Shared.pull (map (from_the_end 6) [-1; 2; -6]) (Some (Example.zeros 3 2)) false
    (Example.shared 2 5 (Example.zeros 6 2))
  = Shared.pull [-1; 2; -6] (Some (Example.zeros 3 2)) false
      (Example.shared 2 5 (Example.zeros 6 2))
  /\ Shared.set (map (from_the_end 6) [-1; 2; -6]) (Example.zeros 3 2) false
       (Example.shared 2 5 (Example.zeros 6 2))
     = Shared.set [-1; 2; -6] (Example.zeros 3 2) false
         (Example.shared 2 5 (Example.zeros 6 2))
  /\ Shared.push (map (from_the_end 6) [-1; 2; -6]) (Example.zeros 3 2) false
       (Example.shared 2 5 (Example.zeros 6 2))
     = Shared.push [-1; 2; -6] (Example.zeros 3 2) false
         (Example.shared 2 5 (Example.zeros 6 2))
  /\ Shared.pull [0; -7] (Some (Example.zeros 2 2)) false
       (Example.shared 2 5 (Example.zeros 6 2))
     = (Raise IndexError, Example.shared 2 5 (Example.zeros 6 2)).
Proof.
apply (negative_keys_count_from_the_end
         (Example.shared 2 5 (Example.zeros 6 2)) [-1; 2; -6] [0; -7] (-7)).
- repeat constructor; by vm_compute.
- apply elem_of_cons. right. by apply list_elem_of_singleton.
- by vm_compute.
Defined.

(** ** Reads *)





(** ** Learning rates and step counters *)

Section GroupAttributes.
Context {Group : Type}.
Implicit Types (self : Shared.SharedParameterClient Group).





Lemma getattr_step_key_set_parameters self g p :
  Shared.getattr_optim_step_key (Shared.set_parameters p self) g
  = Shared.getattr_optim_step_key self g.
Proof. done. Qed.

Lemma getattr_step_tensor_set_parameters self g p :
  Shared.getattr_optim_step_value_tensor (Shared.set_parameters p self) g
  = Shared.getattr_optim_step_value_tensor self g.
Proof. done. Qed.

Lemma getattr_step_tensor_written self g t t' :
  Shared.getattr_optim_step_value_tensor self g = Ret t ->
  Shared.getattr_optim_step_value_tensor
    (Shared.set_optim_step_value_tensor g t' self) g = Ret t'.
Proof.
unfold Shared.getattr_optim_step_value_tensor, Shared.set_optim_step_value_tensor.
destruct (String.eqb g "entity"); simpl; [done|].
by destruct (String.eqb g "relation").
Qed.


Lemma shared_get_step_optim_row self g i k t :
  Shared.getattr_optim_step_key self g = Ret [k] ->
  Shared.getattr_optim_step_value_tensor self g = Ret t ->
  0 <= k < Z.of_nat (nrows (Shared.parameters self)) ->
  nrows t = 1%nat -> ncols t = ncols (Shared.parameters self) ->
  (Shared.get_step_optim g i self).1
  = item_at (mkTensor2 (ncols (Shared.parameters self))
               [stored_row (Shared.parameters self) k]) 0 0.
Proof.
intros Hkey Ht Hk Hn Hd. unfold Shared.get_step_optim.
unfold bind at 1. unfold get at 1. unfold bind at 1. unfold lift at 1.
rewrite Hkey. unfold bind at 1. unfold lift at 1. rewrite Ht.
unfold bind at 1.
rewrite shared_pull_rows; [|by apply in_bounds_singleton|done|done].
unfold bind, get, put, lift, ret. cbn [pull_tensor_after fst snd].
by rewrite (getattr_step_tensor_written self g t).
Qed.
End GroupAttributes.


Section LearningRate.
Context {Group : Type}.
Implicit Types (self : Shared.SharedParameterClient Group).


End LearningRate.


Section StepCounter.
Context {Group : Type}.
Implicit Types (self : Shared.SharedParameterClient Group).

Lemma shared_step_optim_state self g i k :
  Shared.getattr_optim_step_key self g = Ret [k] ->
  0 <= k < Z.of_nat (nrows (Shared.parameters self)) ->
  Shared.dim self = Z.of_nat (ncols (Shared.parameters self)) ->
  wf_tensor (Shared.parameters self) ->
  Shared.step_optim g i self =
  (Ret tt,
   Shared.set_parameters
     (mkTensor2 (ncols (Shared.parameters self))
        (<[Z.to_nat k := (fun x => f32_add x f32_one)
                           <$> stored_row (Shared.parameters self) k]>
           (rows (Shared.parameters self))))
     self).
Proof.
intros Hkey Hk Hd Hwf. unfold Shared.step_optim.
unfold bind at 1. unfold get at 1. unfold bind at 1. unfold lift at 1.
rewrite Hkey. unfold bind at 1.
unfold lift, torch_ones, torch_full. rewrite Hd.
assert (((1 <? 0) || (Z.of_nat (ncols (Shared.parameters self)) <? 0)) = false) as ->.
{ apply orb_false_iff. split; apply Z.ltb_ge; lia. }
rewrite shared_push_rows; [|by apply in_bounds_singleton|done|simpl; lia].
do 3 f_equal. unfold pushed_rows, picked_rows, scatter, stored_row. simpl.
rewrite Nat2Z.id. f_equal.
destruct (lookup_lt_is_Some_2 (rows (Shared.parameters self)) (Z.to_nat k))
  as [r Hr]; [unfold nrows in Hk; lia|].
rewrite Hr. simpl.
assert (length r = ncols (Shared.parameters self)) as <-.
{ eapply Forall_forall in Hwf; [exact Hwf|]. by eapply list_elem_of_lookup_2. }
clear. induction r as [|x r IH]; simpl; [done|]. by rewrite IH.
Qed.

Lemma shared_step_optim_then_get self g i k t x :
  Shared.getattr_optim_step_key self g = Ret [k] ->
  Shared.getattr_optim_step_value_tensor self g = Ret t ->
  0 <= k < Z.of_nat (nrows (Shared.parameters self)) ->
  has_shape t 1 (ncols (Shared.parameters self)) ->
  Shared.dim self = Z.of_nat (ncols (Shared.parameters self)) ->
  wf_tensor (Shared.parameters self) ->
  (Shared.get_step_optim g i self).1 = Ret x ->
  (bind (Shared.step_optim g i) (fun _ => Shared.get_step_optim g i) self).1
  = Ret (f32_add x f32_one).
Proof.
intros Hkey Ht Hk (Hn & Hc & _) Hd Hwf Hget.
rewrite (shared_get_step_optim_row self g i k t) in Hget by done.
unfold bind. rewrite (shared_step_optim_state self g i k) by done.
rewrite (shared_get_step_optim_row _ g i k t);
  rewrite ?getattr_step_key_set_parameters,
          ?getattr_step_tensor_set_parameters; try done.
- unfold stored_row in *. simpl in *.
  rewrite list_lookup_insert_eq by (unfold nrows in Hk; lia). simpl.
  unfold item_at in *. simpl in *.
  destruct (default [] (rows (Shared.parameters self) !! Z.to_nat k))
    as [|y row]; [done|].
  simpl in *. by injection Hget as ->.
- unfold nrows. simpl. rewrite length_insert. exact Hk.
Qed.

(** X7: [step_optim(group_name)] adds 1 to the counter that
    [get_step_optim(group_name)] reads: after the step the value read is the
    float32 sum of the value read before and 1. *)
Theorem step_optim_adds_one self (group_name : string) (i : Z) (k : Z)
  (t : Tensor2) (x : f32) :
  Shared.getattr_optim_step_key self group_name = Ret [k] ->
  Shared.getattr_optim_step_value_tensor self group_name = Ret t ->
  0 <= k < Z.of_nat (nrows (Shared.parameters self)) ->
  has_shape t 1 (ncols (Shared.parameters self)) ->
  Shared.dim self = Z.of_nat (ncols (Shared.parameters self)) ->
  wf_tensor (Shared.parameters self) ->
  (Shared.get_step_optim group_name i self).1 = Ret x ->
  (bind (Shared.step_optim group_name i)
     (fun _ => Shared.get_step_optim group_name i) self).1
  = Ret (f32_add x f32_one).
Proof. apply shared_step_optim_then_get. Qed.

(** X8: the counter is a float32 and stops at 16777216: once
    [get_step_optim] reads 16777216.0, a further [step_optim] leaves the
    value read at 16777216.0. *)
Theorem step_counter_stops_at_2_to_the_24 self (group_name : string) (i : Z)
  (k : Z) (t : Tensor2) :
  Shared.getattr_optim_step_key self group_name = Ret [k] ->
  Shared.getattr_optim_step_value_tensor self group_name = Ret t ->
  0 <= k < Z.of_nat (nrows (Shared.parameters self)) ->
  has_shape t 1 (ncols (Shared.parameters self)) ->
  Shared.dim self = Z.of_nat (ncols (Shared.parameters self)) ->
  wf_tensor (Shared.parameters self) ->
  (Shared.get_step_optim group_name i self).1 = Ret (f32_of_Z 16777216) ->
  (bind (Shared.step_optim group_name i)
     (fun _ => Shared.get_step_optim group_name i) self).1
  = Ret (f32_of_Z 16777216).
Proof.
intros Hkey Ht Hk Hshape Hd Hwf Hget.
by rewrite (shared_step_optim_then_get self group_name i k t
              (f32_of_Z 16777216)).
Qed.
End StepCounter.

Lemma step_optim_adds_one_witness :
  (bind (Shared.step_optim "entity" 0)
     (fun _ => Shared.get_step_optim "entity" 0)
     (Shared.step_optim "entity" 0 (Example.shared 2 5 (Example.zeros 6 2))).2).1
  = Ret (f32_add f32_one f32_one).
Proof.
apply (step_optim_adds_one
         (Shared.step_optim "entity" 0 (Example.shared 2 5 (Example.zeros 6 2))).2
         "entity" 0 2 (Example.zeros 1 2) f32_one).
- reflexivity.
- reflexivity.
- by vm_compute.
- repeat split; repeat constructor.
- reflexivity.
- repeat constructor.
- reflexivity.
Defined.

Lemma step_counter_stops_at_2_to_the_24_witness :
  (bind (Shared.step_optim "relation" 0)
     (fun _ => Shared.get_step_optim "relation" 0)
     (Example.shared 1 5
        (mkTensor2 1 [[f32_zero]; [f32_zero]; [f32_zero]; [Example.big];
                      [f32_zero]; [f32_zero]]))).1
  = Ret (f32_of_Z 16777216).
Proof.
apply (step_counter_stops_at_2_to_the_24
         (Example.shared 1 5
            (mkTensor2 1 [[f32_zero]; [f32_zero]; [f32_zero]; [Example.big];
                          [f32_zero]; [f32_zero]]))
         "relation" 0 3 (Example.zeros 1 1)).
- reflexivity.
- reflexivity.
- by vm_compute.
- repeat split; repeat constructor.
- reflexivity.
- repeat constructor.
- reflexivity.
Defined.

(** ** Group names *)

(** X9: on the local-memory client a group name other than ["entity"] and
    ["relation"] names no attribute: [step_optim], [get_step_optim],
    [get_lr] and [set_lr] raise [AttributeError] and leave the client as it
    was. *)
Theorem unknown_group_is_an_attribute_error {Group : Type}
  (self : Shared.SharedParameterClient Group) (group_name : string)
  (parameter_index : Z) (lr : f32) :
  group_name <> "entity"%string ->
  group_name <> "relation"%string ->
  Shared.step_optim group_name parameter_index self = (Raise AttributeError, self)
  /\ Shared.get_step_optim group_name parameter_index self
     = (Raise AttributeError, self)
  /\ Shared.get_lr group_name self = (Raise AttributeError, self)
  /\ Shared.set_lr group_name lr self = (Raise AttributeError, self).
Proof.
intros He Hr. apply String.eqb_neq in He, Hr.
unfold Shared.step_optim, Shared.get_step_optim, Shared.get_lr, Shared.set_lr,
  Shared.getattr_optim_step_key, Shared.getattr_lr_key,
  Shared.getattr_lr_tensor, bind, get, lift.
simpl. by rewrite He, Hr.
Qed.

Lemma unknown_group_is_an_attribute_error_witness :
  Shared.step_optim "Entity" 0 (Example.shared 2 5 (Example.zeros 6 2))
  = (Raise AttributeError, Example.shared 2 5 (Example.zeros 6 2))
  /\ Shared.get_step_optim "Entity" 0 (Example.shared 2 5 (Example.zeros 6 2))
     = (Raise AttributeError, Example.shared 2 5 (Example.zeros 6 2))
  /\ Shared.get_lr "Entity" (Example.shared 2 5 (Example.zeros 6 2))
     = (Raise AttributeError, Example.shared 2 5 (Example.zeros 6 2))
  /\ Shared.set_lr "Entity" Example.two (Example.shared 2 5 (Example.zeros 6 2))
     = (Raise AttributeError, Example.shared 2 5 (Example.zeros 6 2)).
Proof.
apply (unknown_group_is_an_attribute_error
         (Example.shared 2 5 (Example.zeros 6 2)) "Entity" 0 Example.two).
- discriminate.
- discriminate.
Defined.

(** ** Construction and the meta keys *)

Section Construction.
Context {Config Group : Type} {misc : Misc Config Group}.

(** X10: the constructor of the local-memory client puts the five meta keys
    at [num_keys - num_meta_keys + i] for [i = 0..4], whatever
    [num_meta_keys] is.  They are always different from each other, and they
    all lie inside the table exactly when [5 <= num_meta_keys <= num_keys]. *)
Theorem meta_keys_inside_the_table (config : Config) (rank : Z)
  (table : Tensor2) (self : Shared.SharedParameterClient Group) :
  Shared.__init__ config rank table = Ret self ->
  meta_keys self
  = map (fun i => Shared.num_keys self - Shared.num_meta_keys self + i)
      [0; 1; 2; 3; 4]
  /\ NoDup (meta_keys self)
  /\ (in_bounds (nrows (Shared.parameters self)) (meta_keys self)
      <-> 5 <= Shared.num_meta_keys self <= Shared.num_keys self).
Proof.
intros Hinit. apply shared_init_fields in Hinit. simpl in Hinit.
destruct Hinit as (_ & Hm0 & Hp & Hn & _ & Hm & Hk0 & Hk1 & Hk2 & Hk3 & Hk4 & _).
unfold meta_keys. rewrite Hk0, Hk1, Hk2, Hk3, Hk4, Hn, Hm, Hp. simpl.
set (n := Z.of_nat (nrows table)). set (m := get_num_meta_keys config).
split; [by rewrite Z.add_0_r|]. split.
- apply NoDup_ListNoDup. repeat constructor; simpl; lia.
- unfold in_bounds. rewrite !Forall_cons, Forall_nil. fold n. lia.
Qed.

(** X11: when the configuration reserves fewer than five meta keys, the key
    of the relation learning rate lies beyond the table and
    [get_lr("relation")] fails with the index error. *)
Theorem fewer_than_five_meta_keys (config : Config) (rank : Z)
  (table : Tensor2) (self : Shared.SharedParameterClient Group) :
  Shared.__init__ config rank table = Ret self ->
  Shared.num_meta_keys self < 5 ->
  Shared.num_keys self <= Shared.num_keys self - Shared.num_meta_keys self + 4
  /\ (Shared.get_lr "relation" self).1 = Raise IndexError.
Proof.
intros Hinit Hlt. apply shared_init_fields in Hinit. simpl in Hinit.
destruct Hinit as (_ & _ & Hp & Hn & _ & Hm & _ & _ & _ & _ & Hk4 & _).
split; [lia|].
unfold Shared.get_lr, Shared.getattr_lr_key, Shared.getattr_lr_tensor,
  Shared.pull, bind, get, lift. simpl. rewrite Hk4.
rewrite (index_select_out_of_range _ _
           (Z.of_nat (nrows table) - get_num_meta_keys config + 4)); [done| |].
- by apply list_elem_of_singleton.
- rewrite Hp. rewrite <- Hm. lia.
Qed.

End Construction.

Lemma meta_keys_inside_the_table_witness :
  meta_keys (Example.shared 2 3 (Example.zeros 6 2))
  = map (fun i => Shared.num_keys (Example.shared 2 3 (Example.zeros 6 2))
                  - Shared.num_meta_keys (Example.shared 2 3 (Example.zeros 6 2))
                  + i)
      [0; 1; 2; 3; 4]
  /\ NoDup (meta_keys (Example.shared 2 3 (Example.zeros 6 2)))
  /\ (in_bounds (nrows (Shared.parameters (Example.shared 2 3 (Example.zeros 6 2))))
        (meta_keys (Example.shared 2 3 (Example.zeros 6 2)))
      <-> 5 <= Shared.num_meta_keys (Example.shared 2 3 (Example.zeros 6 2))
          <= Shared.num_keys (Example.shared 2 3 (Example.zeros 6 2))).
Proof.
apply (meta_keys_inside_the_table (misc:=Example.misc) (Example.config 2 3) 0
         (Example.zeros 6 2)).
reflexivity.
Defined.

Lemma fewer_than_five_meta_keys_witness :
  Shared.num_keys (Example.shared 2 3 (Example.zeros 6 2))
  <= Shared.num_keys (Example.shared 2 3 (Example.zeros 6 2))
     - Shared.num_meta_keys (Example.shared 2 3 (Example.zeros 6 2)) + 4
  /\ (Shared.get_lr "relation" (Example.shared 2 3 (Example.zeros 6 2))).1
     = Raise IndexError.
Proof.
apply (fewer_than_five_meta_keys (misc:=Example.misc) (Example.config 2 3) 0
         (Example.zeros 6 2)).
- reflexivity.
- by vm_compute.
Defined.

(** * Further properties of the command-protocol client *)



Section LearningRateMessages.
Context {Group : Type} {cmds : TORCH_PARAMETER_SERVER_CMDS}.
Implicit Types (s : Torch.state Group).

End LearningRateMessages.


(** ** One round trip per call *)

Ltac to_the_server :=
  rewrite <- ?app_assoc; simpl;
  match goal with
  | |- exists msgs, ?l = ?l ++ _ => exists []; by rewrite app_nil_r
  | |- exists msgs, ?l ++ [(_, ?a)] = _ => by exists [a]
  | |- exists msgs, ?l ++ [(_, ?a); (_, ?b)] = _ => by exists [a; b]
  | |- exists msgs, ?l ++ [(_, ?a); (_, ?b); (_, ?c)] = _ => by exists [a; b; c]
  end.

Ltac round_trip :=
  split; [to_the_server|simpl; first [by left|right; by eexists]].

Section RoundTrips.
Context {Group : Type} {cmds : TORCH_PARAMETER_SERVER_CMDS}.
Implicit Types (s : Torch.state Group).

Lemma torch_pull_round_trip s keys pull_tensor a :
  one_round_trip s (Torch.pull keys pull_tensor a s).2.
Proof.
unfold one_round_trip, to_server, Torch.pull, Torch.recv. run_client.
destruct pull_tensor as [buf|]; simpl.
- destruct (take_from _ _) as [[msg rest]|] eqn:Hin; simpl; [|round_trip].
  destruct msg as [l|l|m]; simpl; try round_trip.
  destruct (_ && _); simpl; round_trip.
- destruct (torch_zeros _ _) as [buf| |]; simpl; try round_trip.
  destruct (take_from _ _) as [[msg rest]|] eqn:Hin; simpl; [|round_trip].
  destruct msg as [l|l|m]; simpl; try round_trip.
  destruct (_ && _); simpl; round_trip.
Qed.

Lemma one_round_trip_net s s1 s2 :
  Torch.net s2 = Torch.net s1 -> one_round_trip s s1 -> one_round_trip s s2.
Proof. unfold one_round_trip. by intros ->. Qed.

Lemma torch_is_stopped_net s :
  Torch.net (Torch.is_stopped s).2
  = Torch.net (Torch.pull (Torch._stop_key (Torch.self s))
                 (Some (Torch._stop_value_tensor (Torch.self s))) false s).2.
Proof.
unfold Torch.is_stopped. unfold bind at 1. unfold Torch.this at 1.
unfold bind at 1.
destruct (Torch.pull _ _ _ s) as [[r| |] s1]; simpl; try done.
run_client.
destruct (pull_tensor_after r) as [t|]; simpl.
- unfold row_at. simpl. destruct (rows t !! 0%nat); simpl; [|done].
  by destruct (any_eq _ _).
- unfold row_at. destruct (rows _ !! 0%nat); simpl; [|done].
  by destruct (any_eq _ _).
Qed.

Lemma torch_get_step_optim_round_trip s g :
  one_round_trip s (Torch.get_step_optim g s).2.
Proof.
unfold one_round_trip, to_server, Torch.get_step_optim, Torch.recv.
run_client.
destruct (take_from _ _) as [[msg rest]|] eqn:Hin; simpl; [|round_trip].
destruct msg as [l|l|m]; simpl; try round_trip.
destruct (length l) as [|[|[|n]]] eqn:El; simpl; try round_trip.
destruct l as [|x [|y l]]; simpl; round_trip.
Qed.

Lemma torch_get_lr_round_trip s g :
  one_round_trip s (Torch.get_lr g s).2.
Proof.
unfold one_round_trip, to_server, Torch.get_lr, Torch.recv.
generalize ("GET_" ++ upper g ++ "_LR_CMD")%string. intros name.
run_client.
destruct (getattr_cmd name) as [code| |]; simpl; try round_trip.
destruct (take_from _ _) as [[msg rest]|] eqn:Hin; simpl; [|round_trip].
destruct msg as [l|l|m]; simpl; try round_trip.
destruct (_ =? _)%nat; simpl; [|round_trip].
destruct l; simpl; round_trip.
Qed.

Lemma torch_set_lr_sends_only s g lr :
  one_round_trip s (Torch.set_lr g lr s).2
  /\ inbox (Torch.net (Torch.set_lr g lr s).2) = inbox (Torch.net s).
Proof.
unfold one_round_trip, to_server, Torch.set_lr.
generalize ("SET_" ++ upper g ++ "_LR_CMD")%string. intros name.
run_client.
destruct (getattr_cmd name) as [code| |]; simpl; (split; [round_trip|done]).
Qed.

Lemma torch_stop_sends_only s :
  one_round_trip s (Torch.stop s).2
  /\ inbox (Torch.net (Torch.stop s).2) = inbox (Torch.net s).
Proof.
unfold one_round_trip, to_server, Torch.stop, Torch.push. run_client.
destruct (torch_ones _ _) as [ones| |]; simpl; (split; [round_trip|done]).
Qed.

(** X14: every call of the command-protocol client leaves what was sent
    before in place, sends to its server only, and takes at most one message
    out of the inbox, a message of the server; [push], [set], [stop],
    [shutdown], [step_optim] and [set_lr] take none. *)
Theorem one_round_trip_per_call s (r : request) :
  one_round_trip s (perform r s).2
  /\ (if sends_only r
      then inbox (Torch.net (perform r s).2) = inbox (Torch.net s)
      else True).
Proof.
destruct r as [keys pt a|keys t a|keys t a| | | |g|g|g|g lr];
  unfold perform, sends_only.
- split; [|done]. unfold bind.
  pose proof (torch_pull_round_trip s keys pt a) as Hp.
  by destruct (Torch.pull keys pt a s) as [[x| |] s1].
- rewrite torch_push_sends. split; [|done]. unfold one_round_trip, after_sending.
  split; [|by left].
  by exists [TLong [PUSH_CMD; Torch.len keys]; TLong keys; TFloat2 t].
- rewrite torch_set_sends. split; [|done]. unfold one_round_trip, after_sending.
  split; [|by left].
  by exists [TLong [SET_CMD; Torch.len keys]; TLong keys; TFloat2 t].
- destruct (torch_stop_sends_only s) as [H1 H2]. by split.
- split; [|done]. unfold bind.
  pose proof (torch_pull_round_trip s (Torch._stop_key (Torch.self s))
                (Some (Torch._stop_value_tensor (Torch.self s))) false) as Hp.
  apply (one_round_trip_net s _ (Torch.is_stopped s).2) in Hp;
    [|apply torch_is_stopped_net].
  by destruct (Torch.is_stopped s) as [[x| |] s1].
- split; [|done]. unfold one_round_trip, to_server, Torch.shutdown. run_client.
  round_trip.
- split; [|done]. unfold one_round_trip, to_server, Torch.step_optim. run_client.
  round_trip.
- split; [|done]. unfold bind.
  pose proof (torch_get_step_optim_round_trip s g) as Hp.
  by destruct (Torch.get_step_optim g s) as [[x| |] s1].
- split; [|done]. unfold bind.
  pose proof (torch_get_lr_round_trip s g) as Hp.
  by destruct (Torch.get_lr g s) as [[x| |] s1].
- destruct (torch_set_lr_sends_only s g lr) as [H1 H2]. by split.
Qed.
End RoundTrips.

(** * Writes to different keys *)

Lemma last_write_written j idx vs w :
  last_write j (zip idx vs) = Some w -> j ∈ idx.
Proof.
intros Hw. destruct (decide (j ∈ idx)) as [Hin|Hnot]; [done|].
by rewrite last_write_not_written in Hw.
Qed.

Lemma scatter_commute rs idx1 idx2 vs1 vs2 :
  (forall j, j ∈ idx1 -> j ∈ idx2 -> False) ->
  scatter (scatter rs (zip idx1 vs1)) (zip idx2 vs2)
  = scatter (scatter rs (zip idx2 vs2)) (zip idx1 vs1).
Proof.
intros Hdis. apply list_eq. intros j.
rewrite !scatter_lookup, !length_scatter.
destruct (last_write j (zip idx1 vs1)) as [w1|] eqn:E1,
         (last_write j (zip idx2 vs2)) as [w2|] eqn:E2; try done.
exfalso. apply last_write_written in E1, E2. by apply (Hdis j).
Qed.

Lemma picked_rows_scatter_other rs keys idx vs :
  (forall j, j ∈ positions keys -> j ∈ idx -> False) ->
  picked_rows (scatter rs (zip idx vs)) keys = picked_rows rs keys.
Proof.
intros Hdis. unfold picked_rows. apply map_ext_in. intros k Hk.
rewrite scatter_lookup, last_write_not_written; [done|].
intros Hin. apply (Hdis (Z.to_nat k)); [|done].
unfold positions. apply list_elem_of_fmap. exists k. split; [done|].
by apply list_elem_of_In.
Qed.

Lemma positions_disjoint n keys1 keys2 :
  in_bounds n keys1 -> in_bounds n keys2 -> disjoint_keys keys1 keys2 ->
  forall j, j ∈ positions keys1 -> j ∈ positions keys2 -> False.
Proof.
intros Hb1 Hb2 Hdis j H1 H2. unfold positions in *.
apply list_elem_of_fmap in H1 as (k1 & -> & Hk1).
apply list_elem_of_fmap in H2 as (k2 & Heq & Hk2).
assert (0 <= k1 < Z.of_nat n) by (eapply Forall_forall in Hb1; eauto).
assert (0 <= k2 < Z.of_nat n) by (eapply Forall_forall in Hb2; eauto).
assert (k1 = k2) as -> by lia. by apply (Hdis k2).
Qed.

(** X15: writes to different keys do not interfere: for two key lists inside
    the table that have no key in common and rows of the matching shapes,
    two [push]es, two [set]s, or a [set] and a [push] leave the same client
    in either order. *)
Theorem writes_to_different_keys_commute {Group : Type}
  (self : Shared.SharedParameterClient Group)
  (keys1 keys2 : list Z) (v1 v2 : Tensor2) (a1 a2 : bool) :
  in_bounds (nrows (Shared.parameters self)) keys1 ->
  in_bounds (nrows (Shared.parameters self)) keys2 ->
  disjoint_keys keys1 keys2 ->
  has_shape v1 (length keys1) (ncols (Shared.parameters self)) ->
  has_shape v2 (length keys2) (ncols (Shared.parameters self)) ->
  bind (Shared.push keys1 v1 a1) (fun _ => Shared.push keys2 v2 a2) self
  = bind (Shared.push keys2 v2 a2) (fun _ => Shared.push keys1 v1 a1) self
  /\ bind (Shared.set keys1 v1 a1) (fun _ => Shared.set keys2 v2 a2) self
     = bind (Shared.set keys2 v2 a2) (fun _ => Shared.set keys1 v1 a1) self
  /\ bind (Shared.set keys1 v1 a1) (fun _ => Shared.push keys2 v2 a2) self
     = bind (Shared.push keys2 v2 a2) (fun _ => Shared.set keys1 v1 a1) self.
Proof.
intros Hb1 Hb2 Hdis (Hn1 & Hd1 & _) (Hn2 & Hd2 & _).
pose proof (positions_disjoint _ _ _ Hb1 Hb2 Hdis) as Hpos.
assert (forall j, j ∈ positions keys2 -> j ∈ positions keys1 -> False) as Hpos'.
{ intros j H2 H1. by apply (Hpos j). }
assert (forall upd, in_bounds (length (scatter (rows (Shared.parameters self)) upd))
                      keys1) as Hb1'.
{ intros upd. by rewrite length_scatter. }
assert (forall upd, in_bounds (length (scatter (rows (Shared.parameters self)) upd))
                      keys2) as Hb2'.
{ intros upd. by rewrite length_scatter. }
unfold bind. repeat split.
- rewrite (shared_push_rows self keys1), (shared_push_rows self keys2) by done.
  rewrite !shared_push_rows by (simpl; try done; apply Hb1' || apply Hb2').
  simpl. unfold Shared.set_parameters. simpl. do 3 f_equal.
  unfold pushed_rows.
  rewrite !picked_rows_scatter_other by done.
  by apply scatter_commute.
- rewrite (shared_set_rows self keys1), (shared_set_rows self keys2) by done.
  rewrite !shared_set_rows by (simpl; try done; apply Hb1' || apply Hb2').
  simpl. unfold Shared.set_parameters. simpl. do 3 f_equal.
  by apply scatter_commute.
- rewrite (shared_set_rows self keys1), (shared_push_rows self keys2) by done.
  rewrite shared_set_rows, shared_push_rows
    by (simpl; try done; apply Hb1' || apply Hb2').
  simpl. unfold Shared.set_parameters. simpl. do 3 f_equal.
  unfold pushed_rows.
  rewrite picked_rows_scatter_other by done.
  by apply scatter_commute.
Qed.

Lemma writes_to_different_keys_commute_witness :
  bind (Shared.push [0; 2] (mkTensor2 1 [[f32_one]; [Example.two]]) false)
    (fun _ => Shared.push [1] (mkTensor2 1 [[Example.big]]) false)
    (Example.shared 1 5 (Example.zeros 6 1))
  = bind (Shared.push [1] (mkTensor2 1 [[Example.big]]) false)
      (fun _ => Shared.push [0; 2] (mkTensor2 1 [[f32_one]; [Example.two]]) false)
      (Example.shared 1 5 (Example.zeros 6 1))
  /\ bind (Shared.set [0; 2] (mkTensor2 1 [[f32_one]; [Example.two]]) false)
       (fun _ => Shared.set [1] (mkTensor2 1 [[Example.big]]) false)
       (Example.shared 1 5 (Example.zeros 6 1))
     = bind (Shared.set [1] (mkTensor2 1 [[Example.big]]) false)
         (fun _ => Shared.set [0; 2] (mkTensor2 1 [[f32_one]; [Example.two]]) false)
         (Example.shared 1 5 (Example.zeros 6 1))
  /\ bind (Shared.set [0; 2] (mkTensor2 1 [[f32_one]; [Example.two]]) false)
       (fun _ => Shared.push [1] (mkTensor2 1 [[Example.big]]) false)
       (Example.shared 1 5 (Example.zeros 6 1))
     = bind (Shared.push [1] (mkTensor2 1 [[Example.big]]) false)
         (fun _ => Shared.set [0; 2] (mkTensor2 1 [[f32_one]; [Example.two]]) false)
         (Example.shared 1 5 (Example.zeros 6 1)).
Proof.
apply writes_to_different_keys_commute.
- repeat constructor; simpl; lia.
- repeat constructor; simpl; lia.
- intros k H1 H2. apply list_elem_of_singleton in H2. subst k.
  apply elem_of_cons in H1 as [H1|H1]; [done|].
  by apply list_elem_of_singleton in H1.
- repeat split; repeat constructor.
- repeat split; repeat constructor.
Defined.

(** * Writes that change nothing, writes that win *)

Lemma f32_add_zero x : x <> S754_zero true -> f32_add x f32_zero = x.
Proof. by destruct x as [[]| | |]. Qed.

Lemma zip_with_add_zeros row d :
  length row = d -> Forall (fun x => x <> S754_zero true) row ->
  zip_with f32_add row (replicate d f32_zero) = row.
Proof.
intros <-. induction 1 as [|x row Hx _ IH]; simpl; [done|].
by rewrite f32_add_zero, IH.
Qed.

Lemma last_write_picked_rows rs keys j w :
  in_bounds (length rs) keys ->
  last_write j (zip (positions keys) (picked_rows rs keys)) = Some w ->
  rs !! j = Some w.
Proof.
induction 1 as [|k keys Hk _ IH]; simpl; [done|].
destruct (last_write j _) as [w'|]; [done|].
destruct (decide (Z.to_nat k = j)) as [<-|]; [|done].
intros [= <-].
destruct (lookup_lt_is_Some_2 rs (Z.to_nat k)) as [r Hr]; [lia|].
by rewrite Hr.
Qed.

(** Writing back the rows that were just read changes nothing. *)
Lemma scatter_picked_rows rs keys :
  in_bounds (length rs) keys ->
  scatter rs (zip (positions keys) (picked_rows rs keys)) = rs.
Proof.
intros Hb. apply list_eq. intros j. rewrite scatter_lookup.
destruct (last_write j _) as [w|] eqn:Hw; [|done].
apply last_write_picked_rows in Hw; [|done].
rewrite decide_True; [done|]. by eapply lookup_lt_Some.
Qed.

Lemma set_parameters_same {Group : Type}
  (self : Shared.SharedParameterClient Group) :
  Shared.set_parameters (Shared.parameters self) self = self.
Proof. by destruct self. Qed.

(** X16: pushing zeros changes nothing, provided that the table is well
    formed and no stored component at the keys is the negative zero (which
    the addition of zero would turn into the positive one).  The keys may
    repeat. *)
Theorem push_of_zeros_changes_nothing {Group : Type}
  (self : Shared.SharedParameterClient Group)
  (keys : list Z) (zeros : Tensor2) (a : bool) :
  in_bounds (nrows (Shared.parameters self)) keys ->
  wf_tensor (Shared.parameters self) ->
  torch_zeros (Z.of_nat (length keys))
    (Z.of_nat (ncols (Shared.parameters self))) = Ret zeros ->
  no_negative_zero (picked_rows (rows (Shared.parameters self)) keys) ->
  Shared.push keys zeros a self = (Ret tt, self).
Proof.
intros Hb Hwf Hz Hnz. unfold torch_zeros, torch_full in Hz.
assert (((Z.of_nat (length keys) <? 0)
         || (Z.of_nat (ncols (Shared.parameters self)) <? 0)) = false) as E.
{ apply orb_false_iff. split; apply Z.ltb_ge; lia. }
rewrite E, !Nat2Z.id in Hz. injection Hz as <-.
rewrite shared_push_rows; [|done|by unfold nrows; simpl; rewrite length_replicate|done].
f_equal.
assert (pushed_rows (rows (Shared.parameters self)) keys
          {| ncols := ncols (Shared.parameters self);
             rows := replicate (length keys)
                       (replicate (ncols (Shared.parameters self)) f32_zero) |}
        = picked_rows (rows (Shared.parameters self)) keys) as ->.
{ unfold pushed_rows. simpl. unfold no_negative_zero in Hnz.
  assert (Forall (fun r => length r = ncols (Shared.parameters self))
            (picked_rows (rows (Shared.parameters self)) keys)) as Hlen.
  { unfold picked_rows. apply Forall_fmap, Forall_forall. intros k Hk. simpl.
    eapply Forall_forall in Hb; [|exact Hk]. unfold nrows in Hb.
    destruct (lookup_lt_is_Some_2 (rows (Shared.parameters self)) (Z.to_nat k))
      as [r Hr]; [lia|].
    rewrite Hr. simpl.
    eapply Forall_forall in Hwf; [exact Hwf|]. by eapply list_elem_of_lookup_2. }
  rewrite <- (length_picked_rows (rows (Shared.parameters self)) keys).
  induction (picked_rows (rows (Shared.parameters self)) keys) as [|r prs IH];
    simpl; [done|].
  apply Forall_cons in Hnz as [Hr Hnz]. apply Forall_cons in Hlen as [Hlr Hlen].
  by rewrite zip_with_add_zeros, IH. }
rewrite scatter_picked_rows by done.
assert ({| ncols := ncols (Shared.parameters self);
           rows := rows (Shared.parameters self) |} = Shared.parameters self)
  as -> by (by destruct (Shared.parameters self)).
apply set_parameters_same.
Qed.

Lemma push_of_zeros_changes_nothing_witness :
  Shared.push [2; 2; 0] (Example.zeros 3 2) false
    (Example.shared 2 5 (mkTensor2 2 [[f32_one; f32_zero]; [f32_zero; f32_zero];
                                      [Example.big; Example.two]]))
  = (Ret tt,
     Example.shared 2 5 (mkTensor2 2 [[f32_one; f32_zero]; [f32_zero; f32_zero];
                                      [Example.big; Example.two]])).
Proof.
apply push_of_zeros_changes_nothing.
- repeat constructor; simpl; lia.
- repeat constructor.
- reflexivity.
- repeat constructor; discriminate.
Defined.

(** X17: a [set] wins over the writes made before it with the same key list:
    after [set(keys, w)] or [push(keys, w)], [set(keys, v)] leaves the client
    that [set(keys, v)] alone leaves.  The keys may repeat. *)
Theorem set_overwrites_earlier_writes {Group : Type}
  (self : Shared.SharedParameterClient Group)
  (keys : list Z) (v w : Tensor2) (a1 a2 : bool) :
  in_bounds (nrows (Shared.parameters self)) keys ->
  has_shape v (length keys) (ncols (Shared.parameters self)) ->
  has_shape w (length keys) (ncols (Shared.parameters self)) ->
  bind (Shared.set keys w a1) (fun _ => Shared.set keys v a2) self
  = Shared.set keys v a2 self
  /\ bind (Shared.push keys w a1) (fun _ => Shared.set keys v a2) self
     = Shared.set keys v a2 self.
Proof.
intros Hb (Hvn & Hvd & _) (Hwn & Hwd & _). unfold bind. split.
- rewrite (shared_set_rows self keys w), (shared_set_rows self keys v) by done.
  rewrite shared_set_rows;
    [|by unfold nrows; simpl; rewrite length_scatter|done|done].
  simpl. unfold Shared.set_parameters. simpl. do 3 f_equal.
  apply scatter_twice. unfold nrows in *. lia.
- rewrite (shared_push_rows self keys w), (shared_set_rows self keys v) by done.
  rewrite shared_set_rows;
    [|by unfold nrows; simpl; rewrite length_scatter|done|done].
  simpl. unfold Shared.set_parameters. simpl. do 3 f_equal.
  apply scatter_twice. rewrite length_pushed_rows by done.
  unfold nrows in *. lia.
Qed.

Lemma set_overwrites_earlier_writes_witness :
  bind (Shared.set [4; 4; 1] (mkTensor2 1 [[f32_one]; [Example.two]; [f32_one]]) false)
    (fun _ => Shared.set [4; 4; 1]
                (mkTensor2 1 [[Example.big]; [f32_one]; [Example.two]]) false)
    (Example.shared 1 5 (Example.zeros 6 1))
  = Shared.set [4; 4; 1] (mkTensor2 1 [[Example.big]; [f32_one]; [Example.two]])
      false (Example.shared 1 5 (Example.zeros 6 1))
  /\ bind (Shared.push [4; 4; 1]
             (mkTensor2 1 [[f32_one]; [Example.two]; [f32_one]]) false)
       (fun _ => Shared.set [4; 4; 1]
                   (mkTensor2 1 [[Example.big]; [f32_one]; [Example.two]]) false)
       (Example.shared 1 5 (Example.zeros 6 1))
     = Shared.set [4; 4; 1] (mkTensor2 1 [[Example.big]; [f32_one]; [Example.two]])
         false (Example.shared 1 5 (Example.zeros 6 1)).
Proof.
apply set_overwrites_earlier_writes.
- repeat constructor; simpl; lia.
- repeat split; repeat constructor.
- repeat split; repeat constructor.
Defined.
